(** * gd.py: the Session orchestrator ([gd/session.py]) and its route table
      ([gd/utils/routes.py])

    A shallow embedding of [GDSession] and of the [Route] class.  Python
    values that the session code inspects dynamically (replies that are
    either text or a bare integer, parser results, gathered task results)
    are kept as tagged unions; operations that can raise return a [result];
    operations that talk to the backend run in a small state-and-error monad
    over the list of bodies the backend will answer and the log of requests
    sent so far. *)

From Stdlib Require Import ZArith List String Ascii Bool Lia.
Import ListNotations.

#[local] Open Scope string_scope.
#[local] Open Scope Z_scope.

(** ** Python primitives used by the session code *)

Module Py.

(** A [str] is modelled as the sequence of its code points, each of them
    below 256: a character of a [string] is one code point, not a byte of
    an encoding.  Texts with a code point from 256 on (the decimal digits
    and the white space of other scripts among them) are out of reach of
    this model. *)

(** The decimal digits, which [int()] reads. *)
Definition is_digit (c : ascii) : bool :=
  let n := nat_of_ascii c in (48 <=? n)%nat && (n <=? 57)%nat.

Definition digit_val (c : ascii) : Z := Z.of_nat (nat_of_ascii c) - 48.

Definition digit_char (d : Z) : ascii := ascii_of_nat (Z.to_nat (48 + d)).

(** The superscripts two, three and one (code points 178, 179 and 185):
    digits for [str.isdigit()], which [int()] does not read. *)
Definition is_superscript (c : ascii) : bool :=
  let n := nat_of_ascii c in
  (n =? 178)%nat || (n =? 179)%nat || (n =? 185)%nat.

(** [str.isdecimal()]: at least one character, and all of them decimal
    digits. *)
Definition isdecimal (s : string) : bool :=
  match list_ascii_of_string s with
  | [] => false
  | l => forallb is_digit l
  end.

(** [str.isdigit()]: at least one character, and all of them digits, the
    superscripts included. *)
Definition isdigit (s : string) : bool :=
  match list_ascii_of_string s with
  | [] => false
  | l => forallb (fun c => is_digit c || is_superscript c) l
  end.

(** White space as [int()] strips it: space, \t, \n, \v, \f, \r, and
    the code points 133 (next line) and 160 (no-break space).  The
    separators 28 to 31, which [str.strip()] removes, are not stripped by
    [int()]. *)
Definition is_space (c : ascii) : bool :=
  let n := nat_of_ascii c in
  (n =? 32)%nat || ((9 <=? n)%nat && (n <=? 13)%nat)
  || (n =? 133)%nat || (n =? 160)%nat.

Fixpoint lstrip (l : list ascii) : list ascii :=
  match l with
  | c :: l' => if is_space c then lstrip l' else l
  | [] => []
  end.

Definition strip (l : list ascii) : list ascii :=
  rev (lstrip (rev (lstrip l))).

(** The digits of an [int()] literal: decimal digits, single underscores
    allowed between two digits only.  [prev] tells whether the previous character
    was a digit. *)
Fixpoint int_digits (acc : Z) (prev : bool) (l : list ascii) : option Z :=
  match l with
  | [] => if prev then Some acc else None
  | c :: l' =>
      if is_digit c then int_digits (10 * acc + digit_val c) true l'
      else if Ascii.eqb c "_"%char then
             (if prev then int_digits acc false l' else None)
      else None
  end.



(** [int(s)] for a [str] in base 10: white space around, one sign, the
    digits.  [None] stands for [ValueError]. *)
Definition int (s : string) : option Z :=
  match strip (list_ascii_of_string s) with
  | [] => None
  | c :: l =>
      if Ascii.eqb c "-"%char then option_map Z.opp (int_digits 0 false l)
      else if Ascii.eqb c "+"%char then int_digits 0 false l
      else int_digits 0 false (c :: l)
  end.

(** Decimal digits of a non-negative integer, most significant first. *)
Fixpoint digits_of (fuel : nat) (n : Z) (acc : list ascii) : list ascii :=
  match fuel with
  | O => acc
  | S fuel' =>
      let acc' := digit_char (n mod 10) :: acc in
      if n <? 10 then acc' else digits_of fuel' (n / 10) acc'
  end.

Definition digits (n : Z) : list ascii :=
  digits_of (S (Z.to_nat (Z.log2 n))) n [].

(** [str(n)] for an [int]. *)
Definition str_of_int (n : Z) : string :=
  string_of_list_ascii
    (if n <? 0 then "-"%char :: digits (- n) else digits n).

(** [s.startswith(prefix)] *)
Fixpoint startswith (s prefix : string) {struct prefix} : bool :=
  match prefix with
  | EmptyString => true
  | String a prefix' =>
      match s with
      | EmptyString => false
      | String b s' => Ascii.eqb a b && startswith s' prefix'
      end
  end.

(** [s.split(sep)] for a non-empty separator: [skip] counts the characters
    of a separator just recognised that are still to be passed over, [cur]
    is the segment being read. *)
Fixpoint split_aux (sep : string) (skip : nat) (cur : string) (s : string)
  : list string :=
  match s with
  | EmptyString => [cur]
  | String c s' =>
      match skip with
      | S k => split_aux sep k cur s'
      | O =>
          if startswith s sep
          then cur :: split_aux sep (String.length sep - 1) "" s'
          else split_aux sep O (cur ++ String c "") s'
      end
  end.

Definition split (s sep : string) : list string := split_aux sep O "" s.

(** Truth value of a [str]: non-empty. *)
Definition str_bool (s : string) : bool :=
  match s with EmptyString => false | _ => true end.

End Py.

(** ** Errors

    The four kinds of [gd/errors.py] that the session names, and the Python
    built-in exceptions the modelled code can raise.  [ClientNotLogged] is
    the failure of [check_logged_obj]. *)

Inductive error : Type :=
| MissingAccess (message : string)
| NothingFound (cls : string)
| LoginFailure (login password : string)
| SongRestrictedForUsage (song_id : Z)
| ClientNotLogged (func_name : string)
| AttributeError (obj attr : string)
| ValueError (what : string)
| TypeError (what : string)
| KeyError (what : string)
| IndexError (what : string)
| AssertionError (what : string)
| TransportError (what : string)
| OtherError (what : string).

Inductive result (A : Type) : Type :=
| Return (a : A)
| Raise (e : error).

Arguments Return {A} a.
Arguments Raise {A} e.

Definition rbind {A B} (r : result A) (f : A -> result B) : result B :=
  match r with
  | Return a => f a
  | Raise e => Raise e
  end.

Definition of_option {A} (e : error) (o : option A) : result A :=
  match o with
  | Some a => Return a
  | None => Raise e
  end.

Declare Scope result_scope.
Delimit Scope result_scope with result.
Notation "x <- r ;; k" := (rbind r (fun x => k))
  (at level 61, r at next level, right associativity) : result_scope.

(** ** [upload_level]: the password field of the payload *)

Inductive password : Type :=
| PwInt (n : Z)
| PwStr (s : string).

(** [str(password)] *)
Definition password_str (p : option password) : string :=
  match p with
  | None => "None"
  | Some (PwInt n) => Py.str_of_int n
  | Some (PwStr s) => s
  end.

(** [int(password)] *)
Definition password_int (p : option password) : result Z :=
  match p with
  | None => Raise (TypeError "int() argument must be a string or a number")
  | Some (PwInt n) => Return n
  | Some (PwStr s) =>
      of_option (ValueError "invalid literal for int()") (Py.int s)
  end.

Definition is_none {A} (o : option A) : bool :=
  match o with None => true | Some _ => false end.

(** Lines 275-283 of [upload_level]. *)
Definition upload_level_pwd (copyable : bool) (pw : option password)
  : result Z :=
  let pwd := 0 in
  let pwd := if copyable && is_none pw then 1 else pwd in
  let check := password_str pw in
  let add := 1000000 in
  if Py.isdigit check then
    (c <- of_option (ValueError "invalid literal for int()") (Py.int check) ;;
     if c <? add then (p <- password_int pw ;; Return (add + p))
     else Return pwd)%result
  else Return pwd.


(** ** Scalars and mappings

    What the transport hands back and what the parser puts in a mapping:
    [None], an [int] or a [str]. *)

Inductive scalar : Type :=
| SNone
| SInt (n : Z)
| SStr (s : string).

Definition scalar_eqb (a b : scalar) : bool :=
  match a, b with
  | SNone, SNone => true
  | SInt n, SInt m => n =? m
  | SStr s, SStr t => String.eqb s t
  | _, _ => false
  end.

(** [bool(x)] *)
Definition scalar_bool (a : scalar) : bool :=
  match a with
  | SNone => false
  | SInt n => negb (n =? 0)
  | SStr s => Py.str_bool s
  end.

(** [str(x)] *)
Definition scalar_str (a : scalar) : string :=
  match a with
  | SNone => "None"
  | SInt n => Py.str_of_int n
  | SStr s => s
  end.

(** A [dict], in insertion order. *)
Definition dict : Type := list (scalar * scalar).

Fixpoint dict_lookup (d : dict) (k : scalar) : option scalar :=
  match d with
  | [] => None
  | (k', v) :: d' => if scalar_eqb k' k then Some v else dict_lookup d' k
  end.

(** [d.get(k)] *)
Definition dict_get (d : dict) (k : scalar) : scalar :=
  match dict_lookup d k with
  | Some v => v
  | None => SNone
  end.

(** [d[k] = v] *)
Fixpoint dict_set (d : dict) (k v : scalar) : dict :=
  match d with
  | [] => [(k, v)]
  | (k', v') :: d' =>
      if scalar_eqb k' k then (k', v) :: d' else (k', v') :: dict_set d' k v
  end.

(** [d.update(e)] *)
Definition dict_update (d e : dict) : dict :=
  fold_left (fun acc kv => dict_set acc (fst kv) (snd kv)) e d.

(** [dict(pairs)] *)
Definition dict_of (pairs : list (scalar * scalar)) : dict :=
  dict_update [] pairs.

(** ** The route table ([gd/utils/routes.py]) *)

Module Route.

(** A class body as the list of its attributes. *)
Definition table : Type := list (string * string).

Definition routes : table :=
  [ ("GET_USER_INFO", "getGJUserInfo20");
    ("USER_SEARCH", "getGJUsers20");
    ("DOWNLOAD_LEVEL", "downloadGJLevel22");
    ("LEVEL_SEARCH", "getGJLevels21");
    ("GET_SONG_INFO", "getGJSongInfo");
    ("GET_FRIENDS", "getGJUserList20");
    ("GET_COMMENTS", "getGJAccountComments20");
    ("GET_PRIVATE_MESSAGES", "getGJMessages20");
    ("READ_PRIVATE_MESSAGE", "downloadGJMessage20");
    ("SEND_PRIVATE_MESSAGE", "uploadGJMessage20");
    ("DELETE_PRIVATE_MESSAGE", "deleteGJMessages20");
    ("GET_TIMELY", "getGJDailyLevel");
    ("LOGIN", "accounts/loginGJAccount");
    ("CAPTCHA", "accounts/captcha");
    ("MANAGE_ACCOUNT", "accounts/accountManagement");
    ("CHANGE_PASSWORD", "accounts/changepassword");
    ("CHANGE_USERNAME", "accounts/changeusername");
    ("DELETE_ACC_COMMENT", "deleteGJAccComment20");
    ("DELETE_LEVEL_COMMENT", "deleteGJComment20");
    ("UPLOAD_COMMENT", "uploadGJComment21");
    ("UPLOAD_ACC_COMMENT", "uploadGJAccComment20");
    ("UPDATE_ACC_SETTINGS", "updateGJAccSettings20");
    ("GET_FRIEND_REQUESTS", "getGJFriendRequests20");
    ("DELETE_REQUEST", "deleteGJFriendRequests20");
    ("ACCEPT_REQUEST", "acceptGJFriendRequest20");
    ("REQUEST_MODERATOR", "requestUserAccess");
    ("GET_COMMENT_HISTORY", "getGJCommentHistory") ].

Fixpoint lookup (t : table) (name : string) : option string :=
  match t with
  | [] => None
  | (n, v) :: t' => if String.eqb n name then Some v else lookup t' name
  end.

Definition defined (t : table) (name : string) : bool :=
  match lookup t name with Some _ => true | None => false end.

(** [Route.<name>]: attribute access on the class. *)
Definition getattr (t : table) (name : string) : result string :=
  of_option (AttributeError "Route" name) (lookup t name).

(** Every [Route.<NAME>] that [gd/session.py] evaluates, with the
    operation that does. *)
Definition session_refs : list (string * string) :=
  [ ("get_song", "GET_SONG_INFO");
    ("get_ng_song", "NEWGROUNDS_SONG_LISTEN");
    ("get_user", "GET_USER_INFO");
    ("get_user", "USER_SEARCH");
    ("search_user", "USER_SEARCH");
    ("search_user", "GET_USER_INFO");
    ("get_level", "DOWNLOAD_LEVEL");
    ("get_level", "LEVEL_SEARCH");
    ("get_timely", "GET_TIMELY");
    ("upload_level", "UPLOAD_LEVEL");
    ("get_user_list", "GET_USER_LIST");
    ("get_leaderboard", "GET_LEVEL_SCORES");
    ("get_top", "GET_USER_TOP");
    ("login", "LOGIN");
    ("load_save", "GD_URL");
    ("load_save", "LOAD_DATA");
    ("do_save", "GD_URL");
    ("do_save", "SAVE_DATA");
    ("search_levels_on_page", "LEVEL_SEARCH");
    ("report_level", "REPORT_LEVEL");
    ("delete_level", "DELETE_LEVEL");
    ("update_level_desc", "UPDATE_LEVEL_DESC");
    ("rate_level", "RATE_LEVEL_STARS");
    ("rate_demon", "RATE_LEVEL_DEMON");
    ("send_level", "SUGGEST_LEVEL_STARS");
    ("like", "LIKE_ITEM");
    ("get_page_messages", "GET_PRIVATE_MESSAGES");
    ("post_comment", "UPLOAD_ACC_COMMENT");
    ("comment_level", "UPLOAD_COMMENT");
    ("delete_comment", "DELETE_LEVEL_COMMENT");
    ("delete_comment", "DELETE_ACC_COMMENT");
    ("send_friend_request", "SEND_REQUEST");
    ("delete_friend_req", "DELETE_REQUEST");
    ("accept_friend_req", "ACCEPT_REQUEST");
    ("read_friend_req", "READ_REQUEST");
    ("read_message", "READ_PRIVATE_MESSAGE");
    ("delete_message", "DELETE_PRIVATE_MESSAGE");
    ("get_gauntlets", "GET_GAUNTLETS");
    ("get_page_map_packs", "GET_MAP_PACKS");
    ("get_page_friend_requests", "GET_FRIEND_REQUESTS");
    ("retrieve_page_comments", "GET_COMMENT_HISTORY");
    ("retrieve_page_comments", "GET_ACC_COMMENTS");
    ("get_level_comments", "GET_COMMENTS");
    ("block_user", "UNBLOCK_USER");
    ("block_user", "BLOCK_USER");
    ("unfriend_user", "REMOVE_FRIEND");
    ("send_message", "SEND_PRIVATE_MESSAGE");
    ("update_profile", "UPDATE_USER_SCORE");
    ("update_settings", "UPDATE_ACC_SETTINGS") ].

(** The references of the session that the class does not define. *)
Definition undefined_refs (t : table) : list (string * string) :=
  filter (fun r => negb (defined t (snd r))) session_refs.

(** A path literal ends in a slash. *)
Definition trailing_slash (path : string) : bool :=
  match rev (list_ascii_of_string path) with
  | c :: _ => Ascii.eqb c "/"%char
  | [] => false
  end.

End Route.

(** Modelled from the spec: the backend path literals that section 6
    (External interfaces) enumerates, in its order. *)
Definition backend_paths : list string :=
  [ "getGJUserInfo20"; "getGJUsers20"; "downloadGJLevel22"; "getGJLevels21";
    "getGJSongInfo"; "getGJUserList20"; "getGJAccountComments20";
    "getGJMessages20"; "downloadGJMessage20"; "uploadGJMessage20";
    "deleteGJMessages20"; "getGJDailyLevel"; "accounts/loginGJAccount";
    "accounts/captcha"; "accounts/accountManagement";
    "accounts/changepassword"; "accounts/changeusername";
    "deleteGJAccComment20"; "deleteGJComment20"; "uploadGJComment21";
    "uploadGJAccComment20"; "updateGJAccSettings20"; "getGJFriendRequests20";
    "deleteGJFriendRequests20"; "acceptGJFriendRequest20";
    "requestUserAccess"; "getGJCommentHistory" ].

(** ** The response parser ([gd/utils/parser.py]) *)

(** Modelled from the spec: the [Parser] class, which is not among the
    modules embedded here.  Section 4.8 describes a fluent pipeline, configured
    once and then applied to one raw reply: [split] stages and [take] run in
    the order they were chained, [check_empty] short-circuits the whole
    pipeline to the "no result" sentinel ([None]) when the value it meets is
    empty, [with_split] sets the final split (line 533 of the session
    re-configures it on a parser that already has one), [should_map] folds
    the final split pairwise into a mapping with purely numeric tokens
    coerced to integers, and [add_ext] merges extra fields into every
    mapping. *)
Module Parser.

Inductive action : Type :=
| Split (delim : string)
| Take (index : nat)
| CheckEmpty.

Record t : Type := mk {
  actions : list action;
  split_f : option string;
  need_map : bool;
  ext : dict
}.

Definition new : t := mk [] None false [].

Definition split (delim : string) (p : t) : t :=
  mk (actions p ++ [Split delim]) (split_f p) (need_map p) (ext p).

Definition with_split (delim : string) (p : t) : t :=
  mk (actions p) (Some delim) (need_map p) (ext p).

Definition take (index : nat) (p : t) : t :=
  mk (actions p ++ [Take index]) (split_f p) (need_map p) (ext p).

Definition check_empty (p : t) : t :=
  mk (actions p ++ [CheckEmpty]) (split_f p) (need_map p) (ext p).

Definition should_map (p : t) : t :=
  mk (actions p) (split_f p) true (ext p).

Definition add_ext (e : dict) (p : t) : t :=
  mk (actions p) (split_f p) (need_map p) (dict_update (ext p) e).

(** What [parse] returns: the sentinel or a single value ([PAtom]), a list
    of strings, or a mapping. *)
Inductive parsed : Type :=
| PAtom (a : scalar)
| PList (l : list string)
| PDict (d : dict).

(** The value a [check_empty] stage meets is empty: an empty text, a list
    without elements, a mapping without keys.  The split of an empty text
    is a list of one element, the empty text, and is not empty. *)
Definition is_empty (v : parsed) : bool :=
  match v with
  | PAtom a => negb (scalar_bool a)
  | PList [] => true
  | PList _ => false
  | PDict [] => true
  | PDict _ => false
  end.

Definition type_name (v : parsed) : string :=
  match v with
  | PAtom SNone => "NoneType"
  | PAtom (SInt _) => "int"
  | PAtom (SStr _) => "str"
  | PList _ => "list"
  | PDict _ => "dict"
  end.

Definition split_value (delim : string) (v : parsed) : result parsed :=
  match v with
  | PAtom (SStr s) => Return (PList (Py.split s delim))
  | _ => Raise (AttributeError (type_name v) "split")
  end.

Definition take_value (index : nat) (v : parsed) : result parsed :=
  match v with
  | PList l =>
      match nth_error l index with
      | Some s => Return (PAtom (SStr s))
      | None => Raise (IndexError "list index out of range")
      end
  | PAtom (SStr s) =>
      match String.get index s with
      | Some c => Return (PAtom (SStr (String c "")))
      | None => Raise (IndexError "string index out of range")
      end
  | _ => Raise (TypeError "object is not subscriptable")
  end.

(** The stages in order; [None] is the short-circuit of [check_empty]. *)
Fixpoint run (acts : list action) (v : parsed) : result (option parsed) :=
  match acts with
  | [] => Return (Some v)
  | Split delim :: rest =>
      (v' <- split_value delim v ;; run rest v')%result
  | Take index :: rest =>
      (v' <- take_value index v ;; run rest v')%result
  | CheckEmpty :: rest =>
      if is_empty v then Return None else run rest v
  end.

(** Purely numeric tokens become integers, everything else stays text. *)
Definition coerce (token : string) : scalar :=
  if Py.isdecimal token then
    match Py.int token with
    | Some n => SInt n
    | None => SStr token
    end
  else SStr token.

Fixpoint pairs (tokens : list scalar) : list (scalar * scalar) :=
  match tokens with
  | k :: v :: rest => (k, v) :: pairs rest
  | _ => []
  end.

Definition map_value (e : dict) (v : parsed) : result parsed :=
  match v with
  | PList l => Return (PDict (dict_update (dict_of (pairs (map coerce l))) e))
  | _ => Raise (TypeError "should_map needs the output of a split")
  end.

Definition parse (p : t) (raw : scalar) : result parsed :=
  (r <- run (actions p) (PAtom raw) ;;
   match r with
   | None => Return (PAtom SNone)
   | Some v =>
       v' <- match split_f p with
             | Some delim => split_value delim v
             | None => Return v
             end ;;
       if need_map p then map_value (ext p) v' else Return v'
   end)%result.

(** [x is None] *)
Definition is_None (v : parsed) : bool :=
  match v with PAtom SNone => true | _ => false end.

(** [x.get(k)]: only a mapping has it. *)
Definition get (v : parsed) (k : scalar) : result scalar :=
  match v with
  | PDict d => Return (dict_get d k)
  | _ => Raise (AttributeError (type_name v) "get")
  end.

(** [x.update(e)] *)
Definition update (v : parsed) (e : dict) : result parsed :=
  match v with
  | PDict d => Return (PDict (dict_update d e))
  | _ => Raise (AttributeError (type_name v) "update")
  end.

(** [for elem in x]: the elements of a list, the keys of a mapping, the
    characters of a text. *)
Definition iter (v : parsed) : result (list scalar) :=
  match v with
  | PList l => Return (map SStr l)
  | PDict d => Return (map fst d)
  | PAtom (SStr s) =>
      Return (map (fun c => SStr (String c "")) (list_ascii_of_string s))
  | _ => Raise (TypeError "object is not iterable")
  end.

(** The methods of the class; any other attribute is an [AttributeError]. *)
Definition methods : list string :=
  [ "split"; "with_split"; "take"; "check_empty"; "should_map"; "add_ext";
    "parse" ].

Definition has_attr (name : string) : bool :=
  existsb (String.eqb name) methods.

(** [parser.<name>]: attribute access on an instance. *)
Definition getattr (name : string) : result string :=
  if has_attr name then Return name else Raise (AttributeError "Parser" name).

End Parser.

Import Parser(parsed, PAtom, PList, PDict).

(** ** Enumerations and filters ([gd/utils/enums.py], [gd/utils/filters.py]) *)

(** Modelled from the spec: the strategies a search can use, which
    [gd/utils/enums.py] defines and section 4.3 lists. *)
Inductive SearchStrategy : Type :=
| REGULAR | MOST_DOWNLOADED | MOST_LIKED | TRENDING | RECENT | BY_USER
| FEATURED | MAGIC | AWARDED | FOLLOWED | FRIENDS | HALL_OF_FAME.

Definition SearchStrategy_eqb (a b : SearchStrategy) : bool :=
  match a, b with
  | REGULAR, REGULAR | MOST_DOWNLOADED, MOST_DOWNLOADED
  | MOST_LIKED, MOST_LIKED | TRENDING, TRENDING | RECENT, RECENT
  | BY_USER, BY_USER | FEATURED, FEATURED | MAGIC, MAGIC
  | AWARDED, AWARDED | FOLLOWED, FOLLOWED | FRIENDS, FRIENDS
  | HALL_OF_FAME, HALL_OF_FAME => true
  | _, _ => false
  end.

(** Modelled from the spec: the filter set of [gd/utils/filters.py], as far
    as section 4.6 describes it: a strategy and the toggles that are set. *)
Record Filters : Type := {
  strategy : SearchStrategy;
  toggles : list (string * scalar)
}.

Definition Filters_setup_empty : Filters :=
  {| strategy := REGULAR; toggles := [] |}.

(** ** The parameter builder ([gd/utils/params.py]) *)

(** Modelled from the spec: the [Parameters] builder, which is not among
    the modules embedded here.  Section 4.7 describes it as accumulating an
    ordered payload; the wire names of the fields are not given, so each
    call is recorded under the name of the builder method. *)
Module Params.

Inductive field : Type :=
| Field (name : string) (v : scalar)
| FiltersField (f : Filters).

Definition t : Type := list field.

Definition create_new (kind : string) : t := [Field "create_new" (SStr kind)].
Definition put (name : string) (v : scalar) (p : t) : t :=
  (p ++ [Field name v])%list.

Definition put_definer (key : string) (v : scalar) : t -> t :=
  put ("put_definer:" ++ key) v.
Definition put_page := put "put_page".
Definition put_total := put "put_total".
Definition put_type := put "put_type".
Definition put_count := put "put_count".
Definition put_mode := put "put_mode".
Definition put_local := put "put_local".
Definition put_weekly := put "put_weekly".
Definition put_is_sender := put "put_is_sender".
Definition get_sent := put "get_sent".
Definition put_password := put "put_password".
Definition put_username := put "put_username".
Definition put_filters (f : Filters) (p : t) : t :=
  (p ++ [FiltersField f])%list.
Definition finish (p : t) : t := put "finish" SNone p.
Definition finish_login (p : t) : t := put "finish_login" SNone p.
Definition finish_mod (p : t) : t := put "finish_mod" SNone p.

End Params.

(** ** The transport ([gd/utils/http_request.py]) and the session monad *)

Record request : Type := {
  req_route : string;
  req_parameters : Params.t;
  req_custom_base : option string
}.

(** The backend as seen by one run: the bodies it will answer, in the order
    of the requests, and the requests issued so far.  The bodies do not say
    when each answer is back; where that matters, in [asyncio.gather], the
    world tells it: of [n] concurrent tasks that fail on their answers,
    the one at position [first_back n] is the first in time. *)
Record world : Type := {
  replies : list string;
  sent : list request;
  first_back : nat -> nat
}.

Definition M (A : Type) : Type := world -> result A * world.

Definition ret {A} (a : A) : M A := fun w => (Return a, w).
Definition raise {A} (e : error) : M A := fun w => (Raise e, w).
Definition lift {A} (r : result A) : M A := fun w => (r, w).

Definition bind {A B} (m : M A) (f : A -> M B) : M B :=
  fun w =>
    match m w with
    | (Return a, w') => f a w'
    | (Raise e, w') => (Raise e, w')
    end.

Declare Scope session_scope.
Delimit Scope session_scope with session.
Notation "x <- m ;; k" := (bind m (fun x => k))
  (at level 61, m at next level, right associativity) : session_scope.

(** A body that is a bare integer: an optional minus sign and decimal
    digits. *)
Definition bare_int (body : string) : option Z :=
  match body with
  | String "-" digits =>
      if Py.isdecimal digits then option_map Z.opp (Py.int digits) else None
  | _ => if Py.isdecimal body then Py.int body else None
  end.

(** What the transport makes of a body: the integer it spells, or the text. *)
Definition reply_of (body : string) : scalar :=
  match bare_int body with
  | Some n => SInt n
  | None => SStr body
  end.

Definition error_codes : Type := list (Z * error).

Fixpoint code_lookup (codes : error_codes) (n : Z) : option error :=
  match codes with
  | [] => None
  | (k, e) :: codes' => if k =? n then Some e else code_lookup codes' n
  end.

(** The world once a request is out: it is logged, and the backend is left
    with the bodies [rest]. *)
Definition issue (r : request) (w : world) (rest : list string) : world :=
  {| replies := rest; sent := (sent w ++ [r])%list;
     first_back := first_back w |}.

(** Modelled from the spec: [http.request] of [gd/utils/http_request.py], as
    section 4.10 describes it.  It sends the
    parameters to the route and receives the raw body; a body that is a bare
    integer found in [error_codes] raises the error registered for it when
    [raise_errors] is set; otherwise the body (or the bare integer) is
    returned unchanged.  A call that the backend does not answer fails
    outright. *)
Definition http_request (route : string) (parameters : Params.t)
  (codes : error_codes) (raise_errors : bool) (custom_base : option string)
  : M scalar :=
  fun w =>
    let w' := issue {| req_route := route;
                       req_parameters := parameters;
                       req_custom_base := custom_base |} w in
    match replies w with
    | [] => (Raise (TransportError "no reply"), w' [])
    | body :: rest =>
        match bare_int body with
        | Some n =>
            match code_lookup codes n with
            | Some e =>
                if raise_errors then (Raise e, w' rest)
                else (Return (SInt n), w' rest)
            | None => (Return (SInt n), w' rest)
            end
        | None => (Return (SStr body), w' rest)
        end
    end.

(** ** Collaborators of the session

    The session reads field indices from [gd/utils/indexer.py], builds domain
    objects through [gd/classconverter.py] and [gd/utils/converter.py],
    decodes through [gd/utils/crypto/coders.py], parses saves through
    [gd/api] and [gd/utils/save_parser.py], and reads and writes a [Client]
    ([gd/client.py]).  None of them is among the modules embedded here: they are
    taken as an interface, and every statement about the session holds for
    every implementation of it. *)

Class Collaborators : Type := {
  (* gd/utils/indexer.py *)
  Index_USER_NAME : Z;
  Index_USER_PLAYER_ID : Z;
  Index_USER_ACCOUNT_ID : Z;
  Index_USER_ICON : Z;
  Index_USER_ICON_TYPE : Z;
  Index_LEVEL_ID : Z;
  Index_LEVEL_AUDIO_TRACK : Z;
  Index_LEVEL_SONG_ID : Z;
  Index_LEVEL_CREATOR_ID : Z;
  Index_COMMENT_AUTHOR_ID : Z;
  Index_MESSAGE_BODY : Z;
  (* the Client *)
  Client : Type;
  client_name : Client -> scalar;
  client_password : Client -> scalar;
  client_encodedpass : Client -> scalar;
  client_account_id : Client -> scalar;
  client_id : Client -> scalar;
  client_is_logged : Client -> bool;
  client_get_parse_dict : Client -> dict;
  client_repr : Client -> string;
  (* domain objects: users, levels, songs, comments, ... *)
  Obj : Type;
  obj_id : Obj -> scalar;
  obj_account_id : Obj -> scalar;
  obj_dict_for_parse : Obj -> dict;
  obj_repr : Obj -> string;
  attach_client : Client -> Obj -> Obj;
  (* gd/classconverter.py, gd/utils/converter.py *)
  user_stats_convert : parsed -> Client -> Obj;
  user_convert : parsed -> Client -> Obj;
  abstractuser_convert : dict -> Client -> Obj;
  song_convert : parsed -> Obj;
  to_normal_song : scalar -> Obj;
  level_convert : parsed -> option Obj -> Obj -> Client -> Obj;
  level_record_convert : parsed -> Z -> Client -> Obj;
  message_convert : parsed -> dict -> Client -> Obj;
  request_convert : parsed -> dict -> Client -> Obj;
  comment_convert : parsed -> dict -> Client -> Obj;
  map_pack_convert : parsed -> Client -> Obj;
  (* gd/utils/crypto/coders.py *)
  Coder_decode : string -> scalar -> result string;
  (* gd/api/save.py, gd/utils/save_parser.py *)
  SaveAPI : Type;
  Save : Type;
  save_from_string_async : string -> string -> bool -> result SaveAPI;
  save_main_dump : SaveAPI -> result string;
  SaveParser_aio_parse : string -> result Save;
  client_upd_save_api : SaveAPI -> Client -> result Client;
  client_upd_save : Save -> Client -> result Client
}.

(** A [Message] as far as [read_message] touches it. *)
Record Message : Type := {
  msg_id : scalar;
  msg_type_name : string;
  msg_repr : string;
  _body : option string
}.

Definition set_body (msg : Message) (body : string) : Message :=
  {| msg_id := msg_id msg;
     msg_type_name := msg_type_name msg;
     msg_repr := msg_repr msg;
     _body := Some body |}.

(** What the name [resp] is bound to in [read_message]. *)
Inductive object : Type :=
| Parsed (p : parsed)
| ParserObj (p : Parser.t).

(** [o.get(k)] *)
Definition object_get (o : object) (k : scalar) : result scalar :=
  match o with
  | Parsed p => Parser.get p k
  | ParserObj _ =>
      (_ <- Parser.getattr "get" ;;
       Raise (TypeError "a method of the parser is not a mapping lookup"))
      %result
  end.

(** ** Small helpers of the session *)

Notation "x |> f" := (f x) (at level 45, left associativity, only parsing).

Fixpoint mapM {A B} (f : A -> result B) (l : list A) : result (list B) :=
  match l with
  | [] => Return []
  | a :: l' => (b <- f a ;; bs <- mapM f l' ;; Return (b :: bs))%result
  end.

Definition assert (b : bool) (what : string) : result unit :=
  if b then Return tt else Raise (AssertionError what).

(** [resp.split(sep)] on whatever the transport returned. *)
Definition str_split (resp : scalar) (sep : string) : result (list string) :=
  match resp with
  | SStr s => Return (Py.split s sep)
  | SInt _ => Raise (AttributeError "int" "split")
  | SNone => Raise (AttributeError "NoneType" "split")
  end.

(** [l[i]] *)
Definition index {A} (l : list A) (i : nat) : result A :=
  of_option (IndexError "list index out of range") (nth_error l i).

(** [t.index(x)] on a tuple of strings *)
Fixpoint tuple_index (t : list string) (x : string) : result Z :=
  match t with
  | [] => Raise (ValueError "tuple.index(x): x not in tuple")
  | y :: t' =>
      if String.eqb y x then Return 0
      else (i <- tuple_index t' x ;; Return (i + 1))%result
  end.

Definition str_in (x : string) (t : list string) : bool :=
  existsb (String.eqb x) t.

(** [repr] of a [str] without quotes or backslashes in it. *)
Definition str_repr (s : string) : string := "'" ++ s ++ "'".

Definition lower_char (c : ascii) : ascii :=
  let n := nat_of_ascii c in
  if ((65 <=? n) && (n <=? 90))%nat
     || ((192 <=? n) && (n <=? 222) && negb (n =? 215))%nat
  then ascii_of_nat (n + 32)
  else c.

(** [s.lower()] *)
Definition str_lower (s : string) : string :=
  string_of_list_ascii (map lower_char (list_ascii_of_string s)).

Definition py_int (s : string) : result Z :=
  of_option (ValueError "invalid literal for int() with base 10") (Py.int s).

Definition _is_not_empty (sequence : string) : bool :=
  negb (Nat.eqb (String.length sequence) 0).

Fixpoint zip {A B} (l : list A) (m : list B) : list (A * B) :=
  match l, m with
  | a :: l', b :: m' => (a, b) :: zip l' m'
  | _, _ => []
  end.

Definition skeys (pairs : list (string * string)) : dict :=
  dict_of (map (fun kv => (SStr (fst kv), SStr (snd kv))) pairs).

(** ** The session ([gd/session.py], class [GDSession])

    [R] is the [Route] class the session is run against: [Route.routes] is
    the one of [gd/utils/routes.py]. *)

Section Session.

Context {C : Collaborators}.
Variable R : Route.table.

#[local] Open Scope session_scope.

Definition route_attr (name : string) : M string :=
  lift (Route.getattr R name).

(** Modelled from the spec: [check_logged_obj] of [gd/utils/decorators.py],
    which section 4.13 names in [get_top] and [search_levels_on_page]: it
    fails with the must-be-logged-in condition when the client is not
    logged in. *)
Definition check_logged_obj (client : Client) (func_name : string)
  : result unit :=
  if client_is_logged client then Return tt
  else Raise (ClientNotLogged func_name).

(** Modelled from the spec: [utils.get] of [gd/utils], which section 4.4
    describes: [utils.get(sequence, id=x)] is the first element whose [id]
    equals [x], or [None]. *)
Definition utils_get (sequence : list Obj) (id : scalar) : option Obj :=
  find (fun o => scalar_eqb (obj_id o) id) sequence.

Definition get_user (account_id : Z) (return_only_stats : bool)
  (client : Client) : M (option Obj) :=
  let parameters :=
    Params.create_new "normal" |> Params.put_definer "user" (SInt account_id)
    |> Params.finish in
  let codes :=
    [(-1, MissingAccess ("No users were found with ID: "
                         ++ Py.str_of_int account_id ++ "."))] in
  route <- route_attr "GET_USER_INFO" ;;
  resp <- http_request route parameters codes true None ;;
  resp <- lift (Parser.parse
                  (Parser.new |> Parser.with_split ":" |> Parser.should_map)
                  resp) ;;
  if return_only_stats then ret (Some (user_stats_convert resp client))
  else
    player_id <- lift (Parser.get resp (SInt Index_USER_PLAYER_ID)) ;;
    let another :=
      Params.create_new "normal" |> Params.put_definer "search" player_id
      |> Params.put_total (SInt 0) |> Params.put_page (SInt 0)
      |> Params.finish in
    route <- route_attr "USER_SEARCH" ;;
    some_resp <- http_request route another [] true None ;;
    new_resp <- lift (Parser.parse
                        (Parser.new |> Parser.split "#" |> Parser.take 0
                         |> Parser.check_empty |> Parser.split ":"
                         |> Parser.should_map)
                        some_resp) ;;
    if Parser.is_None new_resp then ret None
    else
      merged <- lift (mapM (fun k => (v <- Parser.get new_resp (SInt k) ;;
                                      Return (SInt k, v))%result)
                           [Index_USER_NAME; Index_USER_ICON;
                            Index_USER_ICON_TYPE]) ;;
      resp <- lift (Parser.update resp merged) ;;
      ret (Some (user_convert resp client)).

Definition get_level (level_id : Z) (timetuple : Z * Z * Z)
  (client : Client) : M Obj :=
  _ <- lift (assert (level_id >=? -2) "level_id >= -2") ;;
  let '(type, number, cooldown) := timetuple in
  let ext := [(SInt 101, SInt type); (SInt 102, SInt number);
              (SInt 103, SInt cooldown)] in
  let codes :=
    [(-1, MissingAccess ("Failed to get a level. Given ID: "
                         ++ Py.str_of_int level_id))] in
  let parameters :=
    Params.create_new "normal"
    |> Params.put_definer "levelid" (SInt level_id) |> Params.finish in
  route <- route_attr "DOWNLOAD_LEVEL" ;;
  resp <- http_request route parameters codes true None ;;
  level_data <- lift (Parser.parse
                        (Parser.new |> Parser.split "#" |> Parser.take 0
                         |> Parser.split ":" |> Parser.add_ext ext
                         |> Parser.should_map)
                        resp) ;;
  real_id <- lift (Parser.get level_data (SInt Index_LEVEL_ID)) ;;
  let parameters :=
    Params.create_new "normal" |> Params.put_definer "search" real_id
    |> Params.put_filters Filters_setup_empty |> Params.finish in
  route <- route_attr "LEVEL_SEARCH" ;;
  resp <- http_request route parameters codes true None ;;
  resp <- lift (str_split resp "#") ;;
  (* getting song *)
  song_data <- lift (index resp 2) ;;
  song <- lift (if negb (Py.str_bool song_data)
                then (track <- Parser.get level_data
                                 (SInt Index_LEVEL_AUDIO_TRACK) ;;
                      Return (to_normal_song track))%result
                else (p <- Parser.parse
                            (Parser.new |> Parser.with_split "~|~"
                             |> Parser.should_map)
                            (SStr song_data) ;;
                      Return (song_convert p))%result) ;;
  let song := attach_client client song in
  (* getting creator *)
  creator_data <- lift (index resp 1) ;;
  creator_fields <-
    lift (if negb (Py.str_bool creator_data)
          then Return (SInt 0, SStr "unknown", SInt 0)
          else match Py.split creator_data ":" with
               | [id; name; account_id] =>
                   Return (SStr id, SStr name, SStr account_id)
               | _ => Raise (ValueError "wrong number of values to unpack")
               end) ;;
  let '(id, name, account_id) := creator_fields in
  let creator :=
    abstractuser_convert
      (dict_of [(SStr "id", id); (SStr "name", name);
                (SStr "account_id", account_id)])
      client in
  ret (level_convert level_data (Some song) creator client).

Definition get_timely (type : string) (client : Client) : M Obj :=
  w <- lift (tuple_index ["daily"; "weekly"] type) ;;
  let parameters :=
    Params.create_new "normal" |> Params.put_weekly (SInt w)
    |> Params.finish in
  let codes :=
    [(-1, MissingAccess ("Failed to fetch a " ++ str_repr type
                         ++ " level."))] in
  route <- route_attr "GET_TIMELY" ;;
  resp <- http_request route parameters codes true None ;;
  if negb (scalar_bool resp)
  then raise (MissingAccess
                ("Failed to fetch a " ++ type
                 ++ " level. Most likely it is being refreshed."))
  else
    parts <- lift (str_split resp "|") ;;
    numbers <- lift (mapM py_int parts) ;;
    match numbers with
    | num :: cooldown :: _ =>
        let num := num mod 100000 in
        let w := w + 1 in
        level <- get_level (- w) (w, num, cooldown) client ;;
        ret (attach_client client level)
    | _ => raise (ValueError "not enough values to unpack")
    end.

Definition get_leaderboard (level : Obj) (strategy_value : Z)
  (client : Client) : M (list Obj) :=
  let parameters :=
    Params.create_new "normal"
    |> Params.put_definer "accountid" (client_account_id client)
    |> Params.put_definer "levelid" (obj_id level)
    |> Params.put_password (client_encodedpass client)
    |> Params.put_type (SInt strategy_value) |> Params.finish in
  let codes :=
    [(-1, MissingAccess ("Failed to get leaderboard of the level: "
                         ++ obj_repr level ++ "."))] in
  route <- route_attr "GET_LEVEL_SCORES" ;;
  resp <- http_request route parameters codes true None ;;
  if negb (scalar_bool resp) then ret []
  else
    resp <- lift (str_split resp "|") ;;
    let parser :=
      Parser.new |> Parser.with_split ":"
      |> Parser.add_ext [(SInt 101, obj_id level)] |> Parser.should_map in
    lift (mapM (fun data => (p <- Parser.parse parser (SStr data) ;;
                             Return (level_record_convert p strategy_value
                                       client))%result)
               (filter _is_not_empty resp)).

(** [except Exception] around lines 441-447 of [load_save]. *)
Definition load_save_try (resp : scalar) (client : Client) : bool * Client :=
  match (parts <- str_split resp ";" ;;
         sections <- match parts with
                     | main :: levels :: _ => Return (main, levels)
                     | _ => Raise (ValueError "not enough values to unpack")
                     end ;;
         save_api <- save_from_string_async (fst sections) (snd sections)
                       false ;;
         dumped <- save_main_dump save_api ;;
         save <- SaveParser_aio_parse dumped ;;
         Return (save_api, save))%result
  with
  | Raise _ => (false, client)
  | Return (save_api, save) =>
      match client_upd_save_api save_api client with
      | Raise _ => (false, client)
      | Return client1 =>
          match client_upd_save save client1 with
          | Raise _ => (false, client1)
          | Return client2 => (true, client2)
          end
      end
  end.

(** The client is passed back with the flag: [load_save] writes on it. *)
Definition load_save (client : Client) : M (bool * Client) :=
  link <- route_attr "GD_URL" ;;
  let parameters :=
    Params.create_new "normal" |> Params.put_username (client_name client)
    |> Params.put_definer "password" (client_password client)
    |> Params.finish_login in
  let codes :=
    [(-11, MissingAccess ("Failed to load data for client: "
                          ++ client_repr client ++ "."))] in
  route <- route_attr "LOAD_DATA" ;;
  resp <- http_request route parameters codes true (Some link) ;;
  ret (load_save_try resp client).

Definition is_int (a : scalar) : bool :=
  match a with SInt _ => true | _ => false end.

Definition int_gt (a : scalar) (n : Z) : bool :=
  match a with SInt m => n <? m | _ => false end.

(** The result is [Some] of a boolean, or [None] when the function falls
    off its end. *)
Definition rate_demon (level : Obj) (demon_rating_value : Z) (mod_ : bool)
  (client : Client) : M (option bool) :=
  let rating_level := demon_rating_value in
  let parameters :=
    Params.create_new "normal"
    |> Params.put_definer "accountid" (client_account_id client)
    |> Params.put_password (client_encodedpass client)
    |> Params.put_definer "levelid" (obj_id level)
    |> Params.put_definer "rating" (SInt rating_level)
    |> Params.put_mode (SInt (if mod_ then 1 else 0))
    |> Params.finish_mod in
  let codes :=
    [(-2, MissingAccess "Attempt to rate as mod without mod permissions.")]
  in
  route <- route_attr "RATE_LEVEL_DEMON" ;;
  resp <- http_request route parameters codes true None ;;
  if negb (scalar_bool resp) then ret (Some false)
  else if is_int resp && int_gt resp 0 then ret (Some true)
  else ret None.

(** The message is passed back with the body: [read_message] writes on
    it. *)
Definition read_message (msg : Message) (client : Client)
  : M (string * Message) :=
  let parameters :=
    Params.create_new "normal"
    |> Params.put_definer "accountid" (client_account_id client)
    |> Params.put_definer "messageid" (msg_id msg)
    |> Params.put_is_sender (SStr (str_lower (msg_type_name msg)))
    |> Params.put_password (client_encodedpass client) |> Params.finish in
  let codes :=
    [(-1, MissingAccess ("Failed to read a message: " ++ msg_repr msg
                         ++ "."))] in
  route <- route_attr "READ_PRIVATE_MESSAGE" ;;
  resp <- http_request route parameters codes true None ;;
  (* line 857: [resp] is bound anew, to the configured parser *)
  let resp :=
    ParserObj (Parser.new |> Parser.with_split ":" |> Parser.should_map) in
  body <- lift (object_get resp (SInt Index_MESSAGE_BODY)) ;;
  decoded <- lift (Coder_decode "message" body) ;;
  ret (decoded, set_body msg decoded).

Definition search_levels_on_page (page : Z) (query : string)
  (filters : option Filters) (user : option (Z + Obj))
  (gauntlet : option Z) (raise_errors : bool) (client : Client)
  : M (list Obj) :=
  let filters :=
    match filters with None => Filters_setup_empty | Some f => f end in
  let params :=
    Params.create_new "normal" |> Params.put_definer "search" (SStr query)
    |> Params.put_page (SInt page) |> Params.put_total (SInt 0)
    |> Params.put_filters filters in
  let codes := [(-1, MissingAccess "No levels were found.")] in
  params <-
    lift (if SearchStrategy_eqb (strategy filters) BY_USER then
            match user with
            | None =>
                (_ <- check_logged_obj client "search_levels_on_page(...)" ;;
                 let id := client_id client in
                 Return (params
                         |> Params.put_definer "accountid"
                              (client_account_id client)
                         |> Params.put_password (client_encodedpass client)
                         |> Params.put_local (SInt 1)
                         |> Params.put_definer "search" id))%result
            | Some u =>
                let id := match u with
                          | inl n => SInt n
                          | inr o => obj_id o
                          end in
                Return (params |> Params.put_definer "search" id)
            end
          else if SearchStrategy_eqb (strategy filters) FRIENDS then
            (_ <- check_logged_obj client
                    "search_levels_on_page(..., client=client)" ;;
             Return (params
                     |> Params.put_definer "accountid"
                          (client_account_id client)
                     |> Params.put_password (client_encodedpass client)))
            %result
          else Return params) ;;
  let params :=
    match gauntlet with
    | Some g => params |> Params.put_definer "gauntlet" (SInt g)
    | None => params
    end in
  let parameters := Params.finish params in
  route <- route_attr "LEVEL_SEARCH" ;;
  resp <- http_request route parameters codes raise_errors None ;;
  if negb (scalar_bool resp) then ret []
  else
    resp <- lift (str_split resp "#") ;;
    let parser :=
      Parser.new |> Parser.with_split "~|~" |> Parser.should_map in
    match firstn 3 resp with
    | [lvdata; cdata; sdata] =>
        songs <-
          lift (mapM (fun s => (p <- Parser.parse parser (SStr s) ;;
                                Return (song_convert p))%result)
                     (filter _is_not_empty (Py.split sdata "~:~"))) ;;
        let creators :=
          map (fun c => abstractuser_convert
                          (skeys (zip ["id"; "name"; "account_id"]
                                      (Py.split c ":")))
                          client)
              (filter _is_not_empty (Py.split cdata "|")) in
        let parser :=
          parser |> Parser.with_split ":"
          |> Parser.add_ext [(SInt 101, SInt 0); (SInt 102, SInt (-1));
                             (SInt 103, SInt (-1))] in
        lift (mapM
                (fun lv =>
                   (data <- Parser.parse parser (SStr lv) ;;
                    song_id <- Parser.get data (SInt Index_LEVEL_SONG_ID) ;;
                    song <- (if negb (scalar_bool song_id)
                             then (track <- Parser.get data
                                              (SInt Index_LEVEL_AUDIO_TRACK) ;;
                                   Return (Some (to_normal_song track)))
                             else Return (utils_get songs song_id)) ;;
                    creator_id <- Parser.get data
                                    (SInt Index_LEVEL_CREATOR_ID) ;;
                    let creator :=
                      match utils_get creators creator_id with
                      | Some c => c
                      | None =>
                          abstractuser_convert
                            (dict_of [(SStr "id", creator_id);
                                      (SStr "name", SStr "unknown");
                                      (SStr "account_id", SInt 0)])
                            client
                      end in
                    Return (level_convert data song creator client))%result)
                (filter _is_not_empty (Py.split lvdata "|")))
    | _ => raise (ValueError "not enough values to unpack")
    end.

Definition get_top (strategy_name : string) (strategy_value : Z)
  (count : Z) (client : Client) : M (list Obj) :=
  let needs_login := (strategy_value =? 1) || (strategy_value =? 2) in
  (* special case: map 'players' -> 'top' *)
  let strategy :=
    if negb (strategy_value =? 0) then str_lower strategy_name else "top" in
  let params :=
    Params.create_new "normal" |> Params.put_type (SStr strategy)
    |> Params.put_count (SInt count) in
  let codes :=
    [(-1, MissingAccess ("Failed to fetch leaderboard for strategy: "
                         ++ str_repr strategy ++ "."))] in
  params <-
    lift (if needs_login then
            (_ <- check_logged_obj client "get_top" ;;
             Return (params
                     |> Params.put_definer "accountid"
                          (client_account_id client)
                     |> Params.put_password (client_encodedpass client)))
            %result
          else Return params) ;;
  let parameters := Params.finish params in
  route <- route_attr "GET_USER_TOP" ;;
  resp <- http_request route parameters codes true None ;;
  resp <- lift (str_split resp "|") ;;
  let parser := Parser.new |> Parser.with_split ":" |> Parser.should_map in
  lift (mapM (fun data => (p <- Parser.parse parser (SStr data) ;;
                           Return (user_stats_convert p client))%result)
             (filter _is_not_empty resp)).

Definition get_page_messages (sent_or_inbox : string) (page : Z)
  (raise_errors : bool) (client : Client) : M (list Obj) :=
  _ <- lift (assert (str_in sent_or_inbox ["inbox"; "sent"])
               "sent_or_inbox in ('inbox', 'sent')") ;;
  let inbox := if negb (String.eqb sent_or_inbox "sent") then 0 else 1 in
  let parameters :=
    Params.create_new "normal"
    |> Params.put_definer "accountid" (client_account_id client)
    |> Params.put_password (client_encodedpass client)
    |> Params.put_page (SInt page) |> Params.put_total (SInt 0)
    |> Params.get_sent (SInt inbox) |> Params.finish in
  let codes :=
    [(-1, MissingAccess "Failed to get messages.");
     (-2, NothingFound "gd.Message")] in
  route <- route_attr "GET_PRIVATE_MESSAGES" ;;
  resp <- http_request route parameters codes raise_errors None ;;
  resp <- lift (Parser.parse
                  (Parser.new |> Parser.split "#" |> Parser.take 0
                   |> Parser.check_empty |> Parser.split "|")
                  resp) ;;
  if Parser.is_None resp then ret []
  else
    let parser := Parser.new |> Parser.with_split ":" |> Parser.should_map in
    elems <- lift (Parser.iter resp) ;;
    lift (mapM (fun elem =>
                  (p <- Parser.parse parser elem ;;
                   Return (message_convert p (client_get_parse_dict client)
                             client))%result)
               elems).

Definition get_page_map_packs (page : Z) (raise_errors : bool)
  (client : Client) : M (list Obj) :=
  let parameters :=
    Params.create_new "normal" |> Params.put_page (SInt page)
    |> Params.finish in
  route <- route_attr "GET_MAP_PACKS" ;;
  resp <- http_request route parameters [] true None ;;
  resp <- lift (Parser.parse
                  (Parser.new |> Parser.split "#" |> Parser.take 0
                   |> Parser.split "|" |> Parser.check_empty
                   |> Parser.should_map)
                  resp) ;;
  if Parser.is_None resp then
    if raise_errors then raise (NothingFound "gd.MapPack") else ret []
  else
    let parser := Parser.new |> Parser.with_split ":" |> Parser.should_map in
    elems <- lift (Parser.iter resp) ;;
    lift (mapM (fun elem => (p <- Parser.parse parser elem ;;
                             Return (map_pack_convert p client))%result)
               elems).

Definition get_page_friend_requests (sent_or_inbox : string) (page : Z)
  (raise_errors : bool) (client : Client) : M (list Obj) :=
  let inbox := if String.eqb sent_or_inbox "sent" then 1 else 0 in
  let parameters :=
    Params.create_new "normal"
    |> Params.put_definer "accountid"
         (SStr (scalar_str (client_account_id client)))
    |> Params.put_password (client_encodedpass client)
    |> Params.put_page (SInt page) |> Params.put_total (SInt 0)
    |> Params.get_sent (SInt inbox) |> Params.finish in
  let codes :=
    [(-1, MissingAccess ("Failed to get friend requests on page "
                         ++ Py.str_of_int page ++ "."));
     (-2, NothingFound "gd.FriendRequest")] in
  route <- route_attr "GET_FRIEND_REQUESTS" ;;
  resp <- http_request route parameters codes raise_errors None ;;
  resp <- lift (Parser.parse
                  (Parser.new |> Parser.split "#" |> Parser.take 0
                   |> Parser.split "|" |> Parser.check_empty)
                  resp) ;;
  if Parser.is_None resp then ret []
  else
    let parser :=
      Parser.new |> Parser.split ":"
      |> Parser.add_ext [(SInt 101, SInt inbox)] |> Parser.should_map in
    elems <- lift (Parser.iter resp) ;;
    lift (mapM (fun elem =>
                  (p <- Parser.parse parser elem ;;
                   Return (request_convert p (client_get_parse_dict client)
                             client))%result)
               elems).

Definition retrieve_page_comments (user : Obj) (type : string) (page : Z)
  (raise_errors : bool) (strategy_value : Z) (client : Client)
  : M (list Obj) :=
  _ <- lift (assert (0 <=? page) "isinstance(page, int) and page >= 0") ;;
  _ <- lift (assert (str_in type ["profile"; "level"])
               "type in ('profile', 'level')") ;;
  let is_level := String.eqb type "level" in
  let typeid := if is_level then 0 else 1 in
  let definer := if is_level then "userid" else "accountid" in
  let selfid := if is_level then obj_id user else obj_account_id user in
  route <- route_attr (if is_level then "GET_COMMENT_HISTORY"
                       else "GET_ACC_COMMENTS") ;;
  let parser :=
    Parser.new |> Parser.add_ext [(SInt 101, SInt typeid)]
    |> Parser.should_map in
  let parser :=
    if is_level
    then parser |> Parser.split ":" |> Parser.take 0 |> Parser.split "~"
    else parser |> Parser.with_split "~" in
  let param_obj :=
    Params.create_new "normal" |> Params.put_definer definer selfid
    |> Params.put_page (SInt page) |> Params.put_total (SInt 0) in
  let param_obj :=
    if is_level then param_obj |> Params.put_mode (SInt strategy_value)
    else param_obj in
  let parameters := Params.finish param_obj in
  let codes :=
    [(-1, MissingAccess ("Failed to retrieve comment for user: "
                         ++ obj_repr user ++ "."))] in
  resp <- http_request route parameters codes raise_errors None ;;
  if negb (scalar_bool resp) then ret []
  else
    sections <- lift (str_split resp "#") ;;
    resp <- lift (index sections 0) ;;
    if negb (Py.str_bool resp) then
      if raise_errors then raise (NothingFound "gd.Comment") else ret []
    else
      lift (mapM (fun elem =>
                    (p <- Parser.parse parser (SStr elem) ;;
                     Return (comment_convert p (obj_dict_for_parse user)
                               client))%result)
                 (Py.split resp "|")).

(** [d[k]] *)
Definition getitem (v : parsed) (k : scalar) : result scalar :=
  match v with
  | PDict d => of_option (KeyError (scalar_str k)) (dict_lookup d k)
  | _ => Raise (TypeError "object is not subscriptable")
  end.

Definition get_user_list (type : Z) (client : Client) : M (list Obj) :=
  let parameters :=
    Params.create_new "normal"
    |> Params.put_definer "accountid" (client_account_id client)
    |> Params.put_password (client_encodedpass client)
    |> Params.put_type (SInt type) |> Params.finish in
  let codes :=
    [(-1, MissingAccess "Failed to get friends.");
     (-2, NothingFound "gd.AbstractUser")] in
  route <- route_attr "GET_USER_LIST" ;;
  resp <- http_request route parameters codes true None ;;
  resp <- lift (str_split resp "|") ;;
  let parser := Parser.new |> Parser.with_split ":" |> Parser.should_map in
  lift (mapM
          (fun elem =>
             (temp <- Parser.parse parser (SStr elem) ;;
              name <- getitem temp (SInt Index_USER_NAME) ;;
              id <- getitem temp (SInt Index_USER_PLAYER_ID) ;;
              account_id <- getitem temp (SInt Index_USER_ACCOUNT_ID) ;;
              let parse_dict :=
                dict_of [(SStr "name", name); (SStr "id", id);
                         (SStr "account_id", account_id)] in
              Return (abstractuser_convert parse_dict client))%result)
          resp).

Definition get_level_comments (level : Obj) (strategy_value : Z)
  (amount : Z) (client : Client) : M (list Obj) :=
  let st_value := strategy_value in
  let parameters :=
    Params.create_new "normal"
    |> Params.put_definer "levelid" (obj_id level)
    |> Params.put_page (SInt 0) |> Params.put_total (SInt 0)
    |> Params.put_mode (SInt st_value) |> Params.put_count (SInt amount)
    |> Params.finish in
  let codes :=
    [(-1, MissingAccess ("Failed to get comments of a level: "
                         ++ obj_repr level ++ "."));
     (-2, NothingFound "gd.Comment")] in
  route <- route_attr "GET_COMMENTS" ;;
  resp <- http_request route parameters codes true None ;;
  resp <- lift (Parser.parse
                  (Parser.new |> Parser.split "#" |> Parser.take 0
                   |> Parser.split "|")
                  resp) ;;
  let parser := Parser.new |> Parser.with_split "~" |> Parser.should_map in
  elems <- lift (Parser.iter resp) ;;
  lift (mapM
          (fun elem =>
             (parts <- str_split elem ":" ;;
              (* the generator is consumed by the unpacking: one item more
                 than the two targets is evaluated before it fails *)
              halves <- match parts with
                        | [a; b] =>
                            com_data <- Parser.parse parser (SStr a) ;;
                            user_data <- Parser.parse parser (SStr b) ;;
                            Return (com_data, user_data)
                        | a :: b :: c :: _ =>
                            _ <- Parser.parse parser (SStr a) ;;
                            _ <- Parser.parse parser (SStr b) ;;
                            _ <- Parser.parse parser (SStr c) ;;
                            Raise (ValueError "too many values to unpack")
                        | [a] =>
                            _ <- Parser.parse parser (SStr a) ;;
                            Raise (ValueError "not enough values to unpack")
                        | [] =>
                            Raise (ValueError "not enough values to unpack")
                        end ;;
              let '(com_data, user_data) := halves in
              com_data <- Parser.update com_data
                            [(SInt 1, obj_id level); (SInt 101, SInt 0);
                             (SInt 102, SInt 0)] ;;
              account_id <- getitem user_data (SInt Index_USER_ACCOUNT_ID) ;;
              id <- getitem com_data (SInt Index_COMMENT_AUTHOR_ID) ;;
              name <- getitem user_data (SInt Index_USER_NAME) ;;
              let user_dict :=
                dict_of [(SStr "account_id", account_id); (SStr "id", id);
                         (SStr "name", name)] in
              Return (comment_convert com_data user_dict client))%result)
          elems).

End Session.

(** ** Notions used to state the properties of the session *)

(** Every stage of the guarded block of [load_save] went through, and left
    the client as [client']. *)
Definition stages_succeed {C : Collaborators} (resp : scalar)
  (client client' : Client) : Prop :=
  exists main levels tail save_api dumped save client1,
    str_split resp ";" = Return (main :: levels :: tail)
    /\ save_from_string_async main levels false = Return save_api
    /\ save_main_dump save_api = Return dumped
    /\ SaveParser_aio_parse dumped = Return save
    /\ client_upd_save_api save_api client = Return client1
    /\ client_upd_save save client1 = Return client'.

(** The parsers that [get_user] configures (lines 119 and 131-132) and the
    one of [get_level] (line 210). *)
Definition user_info_parser : Parser.t :=
  Parser.new |> Parser.with_split ":" |> Parser.should_map.

Definition user_search_parser : Parser.t :=
  Parser.new |> Parser.split "#" |> Parser.take 0 |> Parser.check_empty
  |> Parser.split ":" |> Parser.should_map.

Definition download_parser (ext : dict) : Parser.t :=
  Parser.new |> Parser.split "#" |> Parser.take 0 |> Parser.split ":"
  |> Parser.add_ext ext |> Parser.should_map.

(** The parser that [get_page_messages] applies to the reply (line 715). *)
Definition messages_parser : Parser.t :=
  Parser.new |> Parser.split "#" |> Parser.take 0 |> Parser.check_empty
  |> Parser.split "|".

(** The calls of [search_levels_on_page] and of [get_top] that go through
    [check_logged_obj]. *)
Definition search_needs_login {O : Type} (filters : option Filters)
  (user : option (Z + O)) : bool :=
  match strategy (match filters with
                  | None => Filters_setup_empty
                  | Some f => f
                  end) with
  | BY_USER => is_none user
  | FRIENDS => true
  | _ => false
  end.

Definition top_needs_login (strategy_value : Z) : bool :=
  (strategy_value =? 1) || (strategy_value =? 2).

(** A body that says "no data": it is empty, or its first [#]-section is. *)
Definition no_data (body : string) : Prop :=
  body = "" \/ exists tail, body = String "#" tail.




(** ** [run_many] and [_iterable]

    What a task can return: [None], a boolean, an integer, a text, a list,
    or a domain object (true, and not iterable). *)

#[warnings="-register-all"]
Inductive value (O : Type) : Type :=
| VNone
| VBool (b : bool)
| VInt (n : Z)
| VStr (s : string)
| VList (l : list (value O))
| VObj (o : O).

Arguments VNone {O}.
Arguments VBool {O} b.
Arguments VInt {O} n.
Arguments VStr {O} s.
Arguments VList {O} l.
Arguments VObj {O} o.

Section RunMany.

Variable O : Type.

(** [bool(elem)] *)
Definition truthy (elem : value O) : bool :=
  match elem with
  | VNone => false
  | VBool b => b
  | VInt n => negb (n =? 0)
  | VStr s => Py.str_bool s
  | VList l => match l with [] => false | _ => true end
  | VObj _ => true
  end.

(** [iter(x)], run to its end. *)
Definition py_iter (x : value O) : result (list (value O)) :=
  match x with
  | VList l => Return l
  | VStr s =>
      Return (map (fun c => VStr (String c "")) (list_ascii_of_string s))
  | _ => Raise (TypeError "object is not iterable")
  end.

Definition _iterable (maybe_iterable : value O) : bool :=
  match py_iter maybe_iterable with
  | Return _ => true
  | Raise _ => false
  end.

(** [[elem for elem in res if elem]] *)
Fixpoint keep_truthy (res : list (value O)) : list (value O) :=
  match res with
  | [] => []
  | elem :: rest =>
      if truthy elem then elem :: keep_truthy rest else keep_truthy rest
  end.

(** [all(_iterable(elem) for elem in res)] *)
Fixpoint all_iterable (res : list (value O)) : bool :=
  match res with
  | [] => true
  | elem :: rest => if _iterable elem then all_iterable rest else false
  end.

(** [list(chain.from_iterable(res))] *)
Fixpoint chain_from_iterable (res : list (value O))
  : result (list (value O)) :=
  match res with
  | [] => Return []
  | it :: rest =>
      (items <- py_iter it ;;
       more <- chain_from_iterable rest ;;
       Return (items ++ more)%list)%result
  end.

(** What a task of a gather has come to: its result or its failure, and
    whether it ended without sending a request. *)
Definition outcome : Type := result (value O) * bool.

(** [asyncio.gather] starts the tasks in their order, and a failure of one
    does not stop the others.  So the requests go out in the order of the
    tasks, each task is dealt the bodies next in line, and every task runs
    to its end. *)
Fixpoint run_tasks (tasks : list (M (value O))) (w : world)
  : list outcome * world :=
  match tasks with
  | [] => ([], w)
  | task :: rest =>
      let '(r, w1) := task w in
      let '(outcomes, w2) := run_tasks rest w1 in
      ((r, Nat.eqb (List.length (sent w1)) (List.length (sent w)))
       :: outcomes, w2)
  end.

Fixpoint values (outcomes : list outcome) : list (value O) :=
  match outcomes with
  | [] => []
  | (Return v, _) :: outcomes' => v :: values outcomes'
  | (Raise _, _) :: outcomes' => values outcomes'
  end.

Fixpoint failures (outcomes : list outcome) : list (error * bool) :=
  match outcomes with
  | [] => []
  | (Return _, _) :: outcomes' => failures outcomes'
  | (Raise e, early) :: outcomes' => (e, early) :: failures outcomes'
  end.

(** The failure that reaches the caller is the first in time.  A task that
    fails before it sends anything fails in the first turn of the
    scheduler, before any answer is back, and these turns follow the order
    of the tasks; among the tasks that fail on their answer, the world
    tells which one is first. *)
Definition first_failure (pick : nat -> nat) (f : error * bool)
  (fs : list (error * bool)) : error :=
  match filter snd (f :: fs) with
  | (e, _) :: _ => e
  | [] => nth (pick (S (List.length fs))) (map fst (f :: fs)) (fst f)
  end.

(** [asyncio.gather] over the tasks, awaited: the results in the order of
    the tasks when all of them return, the first failure in time
    otherwise. *)
Definition gather (tasks : list (M (value O))) : M (list (value O)) :=
  fun w =>
    let '(outcomes, w') := run_tasks tasks w in
    match failures outcomes with
    | [] => (Return (values outcomes), w')
    | f :: fs => (Raise (first_failure (first_back w) f fs), w')
    end.

(** Lines 1154-1159: what [run_many] does with the gathered results. *)
Definition run_many_results (res : list (value O))
  : result (list (value O)) :=
  let res := keep_truthy res in
  if all_iterable res then chain_from_iterable res else Return res.

Definition run_many (tasks : list (M (value O))) : M (list (value O)) :=
  (res <- gather tasks ;; lift (run_many_results res))%session.

End RunMany.

Arguments truthy {O} elem.
Arguments py_iter {O} x.
Arguments _iterable {O} maybe_iterable.
Arguments keep_truthy {O} res.
Arguments all_iterable {O} res.
Arguments chain_from_iterable {O} res.
Arguments run_tasks {O} tasks w.
Arguments values {O} outcomes.
Arguments failures {O} outcomes.
Arguments gather {O} tasks.
Arguments run_many_results {O} res.
Arguments run_many {O} tasks.

(** The elements [iter] goes through, for the values that have some. *)
Definition elements {O} (x : value O) : list (value O) :=
  match x with
  | VList l => l
  | VStr s => map (fun c => VStr (String c "")) (list_ascii_of_string s)
  | _ => []
  end.

(** ** A concrete implementation of the collaborators

    Used to run the session on concrete replies: small indices, a client
    that is a record of its fields, objects that keep what they were built
    from. *)

Module Concrete.

Record client : Type := {
  name : scalar;
  password : scalar;
  encodedpass : scalar;
  account_id : scalar;
  id : scalar;
  save_api : option (string * string);
  save : option string
}.

#[warnings="-register-all"]
Inductive obj : Type :=
| Built (kind : string) (data : parsed) (parts : list obj)
| Attached (o : obj).

Fixpoint data_of (o : obj) : parsed :=
  match o with
  | Built _ d _ => d
  | Attached o' => data_of o'
  end.

Definition field (key : string) (o : obj) : scalar :=
  match data_of o with
  | PDict d => dict_get d (SStr key)
  | _ => SNone
  end.

Definition is_logged (c : client) : bool :=
  negb (scalar_eqb (account_id c) SNone) && negb (scalar_eqb (id c) SNone)
  && negb (scalar_eqb (name c) SNone)
  && negb (scalar_eqb (password c) SNone).

Definition from_string (main levels : string) (xor : bool)
  : result (string * string) :=
  if Py.str_bool main then Return (main, levels)
  else Raise (OtherError "empty save").

Definition option_list {A} (o : option A) : list A :=
  match o with Some a => [a] | None => [] end.

#[export] Instance collaborators : Collaborators := {|
  Index_USER_NAME := 1;
  Index_USER_PLAYER_ID := 2;
  Index_USER_ACCOUNT_ID := 16;
  Index_USER_ICON := 9;
  Index_USER_ICON_TYPE := 14;
  Index_LEVEL_ID := 1;
  Index_LEVEL_AUDIO_TRACK := 12;
  Index_LEVEL_SONG_ID := 35;
  Index_LEVEL_CREATOR_ID := 6;
  Index_COMMENT_AUTHOR_ID := 3;
  Index_MESSAGE_BODY := 5;
  Client := client;
  client_name := name;
  client_password := password;
  client_encodedpass := encodedpass;
  client_account_id := account_id;
  client_id := id;
  client_is_logged := is_logged;
  client_get_parse_dict := fun c =>
    [(SStr "name", name c); (SStr "id", id c);
     (SStr "account_id", account_id c)];
  client_repr := fun c => scalar_str (name c);
  Obj := obj;
  obj_id := field "id";
  obj_account_id := field "account_id";
  obj_dict_for_parse := fun o =>
    [(SStr "name", field "name" o); (SStr "id", field "id" o);
     (SStr "account_id", field "account_id" o)];
  obj_repr := fun o => scalar_str (field "id" o);
  attach_client := fun _ o => Attached o;
  user_stats_convert := fun p _ => Built "UserStats" p [];
  user_convert := fun p _ => Built "User" p [];
  abstractuser_convert := fun d _ => Built "AbstractUser" (PDict d) [];
  song_convert := fun p => Built "Song" p [];
  to_normal_song := fun track => Built "Song" (PAtom track) [];
  level_convert := fun p song creator _ =>
    Built "Level" p (option_list song ++ [creator]);
  level_record_convert := fun p _ _ => Built "LevelRecord" p [];
  message_convert := fun p _ _ => Built "Message" p [];
  request_convert := fun p _ _ => Built "FriendRequest" p [];
  comment_convert := fun p _ _ => Built "Comment" p [];
  map_pack_convert := fun p _ => Built "MapPack" p [];
  Coder_decode := fun _ s =>
    match s with
    | SStr t => Return t
    | _ => Raise (TypeError "a string is required")
    end;
  SaveAPI := string * string;
  Save := string;
  save_from_string_async := from_string;
  save_main_dump := fun api => Return (fst api);
  SaveParser_aio_parse := fun dumped => Return dumped;
  client_upd_save_api := fun api c =>
    Return {| name := name c; password := password c;
              encodedpass := encodedpass c; account_id := account_id c;
              id := id c; save_api := Some api; save := save c |};
  client_upd_save := fun s c =>
    Return {| name := name c; password := password c;
              encodedpass := encodedpass c; account_id := account_id c;
              id := id c; save_api := save_api c; save := Some s |}
|}.

(** A client fresh from its constructor, and one after a login. *)
Definition anonymous : client :=
  {| name := SNone; password := SNone; encodedpass := SNone;
     account_id := SNone; id := SNone; save_api := None; save := None |}.

Definition logged_in : client :=
  {| name := SStr "player"; password := SStr "secret";
     encodedpass := SStr "c2VjcmV0"; account_id := SInt 71; id := SInt 1010;
     save_api := None; save := None |}.

Definition player : obj :=
  Built "AbstractUser"
    (PDict [(SStr "name", SStr "player"); (SStr "id", SInt 1010);
            (SStr "account_id", SInt 71)])
    [].

Definition level : obj :=
  Built "Level" (PDict [(SStr "id", SInt 30); (SStr "name", SStr "Jump")])
    [].

Definition letter : Message :=
  {| msg_id := SInt 3; msg_type_name := "NORMAL";
     msg_repr := "<gd.Message: id=3>"; _body := None |}.

Definition backend (bodies : list string) : world :=
  {| replies := bodies; sent := []; first_back := fun _ => 0%nat |}.

End Concrete.

(** ** More of the session *)

(** An error that is the failure of an [assert]. *)
Definition is_assertion (e : error) : bool :=
  match e with AssertionError _ => true | _ => false end.

(** A result, and an operation, that does not end in the failure of an
    assertion. *)
Definition quiet {A} (r : result A) : Prop :=
  match r with
  | Raise e => is_assertion e = false
  | Return _ => True
  end.

Definition never_asserts {A} (m : M A) : Prop := forall w, quiet (fst (m w)).

(** What the session needs besides the first collaborators: the writes on a
    client ([client._upd]), the seed and checksum of
    [gd/utils/crypto/coders.py], the key transform of
    [gd/utils/converter.py], and what it reads from the objects it is given
    ([hasattr], [.type.value], [.level_id], [.author], [str]).  The seed is
    random in the code; here it is any value, fixed for the run. *)
Class Helpers {C : Collaborators} : Type := {
  client_upd : string -> scalar -> Client -> result Client;
  Coder_gen_rs : string;
  Coder_gen_chk : string -> list scalar -> string;
  Converter_snake_to_camel : string -> string;
  obj_hasattr : Obj -> string -> bool;
  obj_type_value : Obj -> Z;
  obj_level_id : Obj -> scalar;
  obj_author : Obj -> Obj;
  obj_str : Obj -> string
}.

(** [d.get(k, default)] *)
Definition get_default (v : parsed) (k default : scalar) : result scalar :=
  match v with
  | PDict d =>
      Return match dict_lookup d k with
             | Some x => x
             | None => default
             end
  | _ => Raise (AttributeError (Parser.type_name v) "get")
  end.

(** [for page in pages], where [pages] defaults to [None]. *)
Definition iter_pages (pages : option (list Z)) : result (list Z) :=
  of_option (TypeError "'NoneType' object is not iterable") pages.

(** A page listing as a task of [run_many]: its result is a list of
    objects. *)
Definition as_task {O} (page : M (list O)) : M (value O) :=
  (l <- page ;; ret (VList (map VObj l)))%session.

(** The pages fetched one after the other, each on the bodies that the
    pages before it left, up to the first page that fails; each result is
    kept apart. *)
Fixpoint each_page {A} (page_op : Z -> M (list A)) (pages : list Z)
  : M (list (list A)) :=
  match pages with
  | [] => ret []
  | page :: pages' =>
      (l <- page_op page ;;
       ls <- each_page page_op pages' ;;
       ret (l :: ls))%session
  end.

(** A fan-out that follows its pages: when the operation returns on every
    page, each page on the bodies next in line, the fan-out returns the
    elements of the pages in the order of the pages; when the operation
    fails on some page, the fan-out fails. *)
Definition pages_in_order {O} (page_op : Z -> M (list O))
  (fan_out : M (list (value O))) (pages : list Z) (w : world) : Prop :=
  (forall ls w',
     each_page page_op pages w = (Return ls, w') ->
     fan_out w = (Return (map VObj (List.concat ls)), w'))
  /\ (forall e w1,
        each_page page_op pages w = (Raise e, w1) ->
        exists e', fst (fan_out w) = Raise e').

(** A call that ends with nothing found: it returns the empty list, has
    taken the replies up to [rest], and has sent [n] requests. *)
Definition finds_nothing {A} (n : nat) (rest : list string) (w : world)
  (m : M (list A)) : Prop :=
  exists w',
    m w = (Return [], w')
    /\ replies w' = rest
    /\ List.length (sent w') = (List.length (sent w) + n)%nat.

(** The sixteen settings whose values [update_profile] signs, in the order
    of lines 1100-1103. *)
Definition profile_keys : list string :=
  [ "user_coins"; "demons"; "stars"; "coins"; "icon_type"; "icon";
    "diamonds"; "acc_icon"; "acc_ship"; "acc_ball"; "acc_bird"; "acc_dart";
    "acc_robot"; "acc_glow"; "acc_spider"; "acc_explosion" ].

(** The first of [keys] that [settings] lacks. *)
Definition first_missing (settings : dict) (keys : list string)
  : option string :=
  find (fun k => is_none (dict_lookup settings (SStr k))) keys.

Section MoreSession.

Context {C : Collaborators} {H : Helpers}.
Variable R : Route.table.

#[local] Open Scope session_scope.

Definition search_user (param : scalar) (return_abstract : bool)
  (client : Client) : M (option Obj) :=
  let parameters :=
    Params.create_new "normal" |> Params.put_definer "search" param
    |> Params.put_total (SInt 0) |> Params.put_page (SInt 0)
    |> Params.finish in
  let codes :=
    [(-1, MissingAccess ("Searching for " ++ scalar_str param
                         ++ " returned -1."))] in
  route <- route_attr R "USER_SEARCH" ;;
  resp <- http_request route parameters codes true None ;;
  mapped <- lift (Parser.parse
                    (Parser.new |> Parser.split "#" |> Parser.take 0
                     |> Parser.check_empty |> Parser.split ":"
                     |> Parser.should_map)
                    resp) ;;
  if Parser.is_None mapped then ret None
  else
    name <- lift (get_default mapped (SInt Index_USER_NAME)
                    (SStr "unknown")) ;;
    id <- lift (get_default mapped (SInt Index_USER_PLAYER_ID) (SInt 0)) ;;
    account_id <- lift (get_default mapped (SInt Index_USER_ACCOUNT_ID)
                          (SInt 0)) ;;
    if return_abstract || negb (scalar_bool account_id) then
      ret (Some (abstractuser_convert
                   (dict_of [(SStr "name", name); (SStr "id", id);
                             (SStr "account_id", account_id)])
                   client))
    else
      (* ok if we should not return abstract, let's find all other
         parameters *)
      let parameters :=
        Params.create_new "normal" |> Params.put_definer "user" account_id
        |> Params.finish in
      route <- route_attr R "GET_USER_INFO" ;;
      resp <- http_request route parameters codes true None ;;
      resp <- lift (Parser.parse
                      (Parser.new |> Parser.with_split ":"
                       |> Parser.should_map)
                      resp) ;;
      merged <- lift (mapM (fun k => (v <- Parser.get mapped (SInt k) ;;
                                      Return (SInt k, v))%result)
                           [Index_USER_NAME; Index_USER_ICON;
                            Index_USER_ICON_TYPE]) ;;
      resp <- lift (Parser.update resp merged) ;;
      ret (Some (user_convert resp client)).

(** [for attr, value in prepared.items(): client._upd(attr, value)]: the
    client as the writes leave it, with the first failure if there is one. *)
Fixpoint upd_all (prepared : list (string * scalar)) (client : Client)
  : result unit * Client :=
  match prepared with
  | [] => (Return tt, client)
  | (attr, v) :: prepared' =>
      match client_upd attr v client with
      | Return client' => upd_all prepared' client'
      | Raise e => (Raise e, client)
      end
  end.

(** Lines 418-423 of [login]: the unpacking of the reply and the mapping
    to write. *)
Definition login_prepared (user password : string) (resp : scalar)
  : result (list (string * scalar)) :=
  (parts <- str_split resp "," ;;
   match parts with
   | account_id :: id :: junk =>
       a <- py_int account_id ;;
       i <- py_int id ;;
       Return [("name", SStr user); ("password", SStr password);
               ("account_id", SInt a); ("id", SInt i)]
   | _ => Raise (ValueError "not enough values to unpack")
   end)%result.

(** The client is passed back with the outcome: [login] writes on it. *)
Definition login (client : Client) (user password : string)
  : world -> (result unit * Client) * world :=
  fun w =>
    let parameters :=
      Params.create_new "normal"
      |> Params.put "put_login_definer:username" (SStr user)
      |> Params.put "put_login_definer:password" (SStr password)
      |> Params.finish_login in
    let codes := [(-1, LoginFailure user password)] in
    match (route <- route_attr R "LOGIN" ;;
           http_request route parameters codes true None) w with
    | (Raise e, w') => ((Raise e, client), w')
    | (Return resp, w') =>
        match login_prepared user password resp with
        | Raise e => ((Raise e, client), w')
        | Return prepared => (upd_all prepared client, w')
        end
    end.

(** [resp != 1] *)
Definition not_one (resp : scalar) : bool := negb (scalar_eqb resp (SInt 1)).

Definition rate_level (level : Obj) (rating : Z) (client : Client) : M unit :=
  _ <- lift (assert ((0 <? rating) && (rating <=? 10))
               "Invalid star value given.") ;;
  let rs := Coder_gen_rs in
  let values :=
    [obj_id level; SInt rating; SStr rs; client_account_id client; SInt 0;
     SInt 0] in
  let chk := Coder_gen_chk "like_rate" values in
  let parameters :=
    Params.create_new "normal"
    |> Params.put_definer "levelid" (obj_id level)
    |> Params.put_definer "accountid" (client_account_id client)
    |> Params.put_password (client_encodedpass client)
    |> Params.put "put_udid" (SInt 0) |> Params.put "put_uuid" (SInt 0)
    |> Params.put_definer "stars" (SInt rating)
    |> Params.put "put_rs" (SStr rs) |> Params.put "put_chk" (SStr chk)
    |> Params.finish in
  route <- route_attr R "RATE_LEVEL_STARS" ;;
  resp <- http_request route parameters [] true None ;;
  if not_one resp
  then raise (MissingAccess ("Failed to rate level: " ++ obj_str level
                             ++ "."))
  else ret tt.

(** The target of a [like], as lines 662-676 tell it: type id and special
    value, or nothing for an item of another shape. *)
Definition like_target (item : Obj) : option (Z * scalar) :=
  if obj_hasattr item "is_featured" then Some (1, SInt 0) (* level *)
  else if obj_hasattr item "is_spam" then (* comment *)
    if obj_type_value item =? 0 (* not item.type.value *)
    then Some (2, obj_level_id item) (* level comment *)
    else Some (3, obj_id item) (* profile comment *)
  else None. (* wrong type?! *)

Definition like (item : Obj) (dislike : bool) (client : Client) : M unit :=
  match like_target item with
  | None => ret tt
  | Some (typeid, special) =>
      let like := Z.lxor (if dislike then 1 else 0) 1 in
      let rs := Coder_gen_rs in
      let values :=
        [special; obj_id item; SInt like; SInt typeid; SStr rs;
         client_account_id client; SInt 0; SInt 0] in
      let chk := Coder_gen_chk "like_rate" values in
      let parameters :=
        Params.create_new "normal"
        |> Params.put_definer "accountid" (client_account_id client)
        |> Params.put_password (client_encodedpass client)
        |> Params.put "put_udid" (SInt 0) |> Params.put "put_uuid" (SInt 0)
        |> Params.put_definer "itemid" (obj_id item)
        |> Params.put "put_like" (SInt like)
        |> Params.put_type (SInt typeid)
        |> Params.put "put_special" special
        |> Params.put "put_rs" (SStr rs) |> Params.put "put_chk" (SStr chk)
        |> Params.finish in
      route <- route_attr R "LIKE_ITEM" ;;
      resp <- http_request route parameters [] true None ;;
      if not_one resp
      then raise (MissingAccess ("Failed to like an item: " ++ obj_str item
                                 ++ "."))
      else ret tt
  end.

Definition send_friend_request (target : Obj) (message : option string)
  (client : Client) : M unit :=
  let message := match message with None => "" | Some m => m end in
  let parameters :=
    Params.create_new "normal"
    |> Params.put_definer "accountid" (client_account_id client)
    |> Params.put "put_recipient" (obj_account_id target)
    |> Params.put "put_fr_comment" (SStr message)
    |> Params.put_password (client_encodedpass client) |> Params.finish in
  route <- route_attr R "SEND_REQUEST" ;;
  resp <- http_request route parameters [] true None ;;
  if negb (scalar_bool resp) then ret tt (* if request is already sent *)
  else if not_one resp
  then raise (MissingAccess ("Failed to send a friend request to user: "
                             ++ obj_repr target ++ "."))
  else ret tt.

Definition accept_friend_req (req : Obj) (client : Client) : M unit :=
  if negb (obj_type_value req =? 0) (* is gd.MessageOrRequestType.SENT *)
  then raise (MissingAccess
                ("Failed to accept a friend request. "
                 ++ "Reason: request is sent, not recieved one."))
  else
    let parameters :=
      Params.create_new "normal"
      |> Params.put_definer "accountid" (client_account_id client)
      |> Params.put_password (client_encodedpass client)
      |> Params.put_definer "user" (obj_account_id (obj_author req))
      |> Params.put_definer "requestid" (obj_id req) |> Params.finish in
    route <- route_attr R "ACCEPT_REQUEST" ;;
    resp <- http_request route parameters [] true None ;;
    if not_one resp
    then raise (MissingAccess ("Failed to accept a friend request: "
                               ++ obj_repr req ++ "."))
    else ret tt.

(** [settings[param]] *)
Definition setting (settings : dict) (param : string) : result scalar :=
  of_option (KeyError (str_repr param)) (dict_lookup settings (SStr param)).

(** [resp > 0] *)
Definition gt_zero (resp : scalar) : result bool :=
  match resp with
  | SInt n => Return (0 <? n)
  | SStr _ =>
      Raise (TypeError
               "'>' not supported between instances of 'str' and 'int'")
  | SNone =>
      Raise (TypeError
               "'>' not supported between instances of 'NoneType' and 'int'")
  end.

Definition update_profile (settings : dict) (client : Client) : M unit :=
  let settings_cased :=
    map (fun kv => Params.Field
                     (Converter_snake_to_camel (scalar_str (fst kv)))
                     (snd kv))
        settings in
  let rs := Coder_gen_rs in
  extra <- lift (mapM (setting settings) profile_keys) ;;
  let req_chk_params := client_account_id client :: extra in
  let chk := Coder_gen_chk "userscore" req_chk_params in
  let parameters :=
    Params.create_new "normal"
    |> Params.put_definer "accountid" (client_account_id client)
    |> Params.put_password (client_encodedpass client)
    |> Params.put_username (client_name client)
    |> Params.put "put_seed" (SStr rs) |> Params.put "put_seed2" (SStr chk)
    |> Params.finish in
  let parameters := (parameters ++ settings_cased)%list in
  route <- route_attr R "UPDATE_USER_SCORE" ;;
  resp <- http_request route parameters [] true None ;;
  positive <- lift (gt_zero resp) ;;
  if negb positive
  then raise (MissingAccess ("Failed to update profile of a client: "
                             ++ client_repr client))
  else ret tt.

Definition search_levels (query : string) (filters : option Filters)
  (user : option (Z + Obj)) (pages : option (list Z)) (client : Client)
  : M (list (value Obj)) :=
  pages <- lift (iter_pages pages) ;;
  let to_run :=
    map (fun page => as_task (search_levels_on_page R page query filters
                                user None false client))
        pages in
  run_many to_run.

Definition get_messages (sent_or_inbox : string) (pages : option (list Z))
  (client : Client) : M (list (value Obj)) :=
  _ <- lift (assert (str_in sent_or_inbox ["inbox"; "sent"])
               "sent_or_inbox in ('inbox', 'sent')") ;;
  pages <- lift (iter_pages pages) ;;
  let to_run :=
    map (fun page => as_task (get_page_messages R sent_or_inbox page false
                                client))
        pages in
  run_many to_run.

Definition get_map_packs (pages : list Z) (client : Client)
  : M (list (value Obj)) :=
  let to_run :=
    map (fun page => as_task (get_page_map_packs R page false client))
        pages in
  run_many to_run.

Definition get_friend_requests (pages : list Z) (sent_or_inbox : string)
  (client : Client) : M (list (value Obj)) :=
  _ <- lift (assert (str_in sent_or_inbox ["sent"; "inbox"])
               "sent_or_inbox in ('sent', 'inbox')") ;;
  let to_run :=
    map (fun page => as_task (get_page_friend_requests R sent_or_inbox page
                                false client))
        pages in
  run_many to_run.

Definition retrieve_comments (user : Obj) (pages : list Z) (type : string)
  (strategy_value : Z) (client : Client) : M (list (value Obj)) :=
  _ <- lift (assert (str_in type ["profile"; "level"])
               "type in ('profile', 'level')") ;;
  let to_run :=
    map (fun page => as_task (retrieve_page_comments R user type page false
                                strategy_value client))
        pages in
  run_many to_run.

End MoreSession.


(** ** A concrete implementation of the further collaborators *)

Module ConcreteHelpers.

Import Concrete.

Definition upd (attr : string) (v : scalar) (c : client) : result client :=
  if String.eqb attr "name" then
    Return {| name := v; password := password c;
              encodedpass := encodedpass c; account_id := account_id c;
              id := id c; save_api := save_api c; save := save c |}
  else if String.eqb attr "password" then
    Return {| name := name c; password := v;
              encodedpass := encodedpass c; account_id := account_id c;
              id := id c; save_api := save_api c; save := save c |}
  else if String.eqb attr "account_id" then
    Return {| name := name c; password := password c;
              encodedpass := encodedpass c; account_id := v;
              id := id c; save_api := save_api c; save := save c |}
  else if String.eqb attr "id" then
    Return {| name := name c; password := password c;
              encodedpass := encodedpass c; account_id := account_id c;
              id := v; save_api := save_api c; save := save c |}
  else Raise (AttributeError "Client" attr).

Fixpoint kind_of (o : obj) : string :=
  match o with
  | Built kind _ _ => kind
  | Attached o' => kind_of o'
  end.

Definition hasattr (o : obj) (attr : string) : bool :=
  (String.eqb attr "is_featured" && String.eqb (kind_of o) "Level")
  || (String.eqb attr "is_spam" && String.eqb (kind_of o) "Comment").

Definition type_value (o : obj) : Z :=
  match field "type" o with SInt n => n | _ => 0 end.

Fixpoint author (o : obj) : obj :=
  match o with
  | Built _ _ (a :: _) => a
  | Built _ _ [] => o
  | Attached o' => author o'
  end.

#[export] Instance helpers : Helpers := {|
  client_upd := upd;
  Coder_gen_rs := "aXk3Q9bZ1m";
  Coder_gen_chk := fun type values =>
    (type ++ ":" ++ String.concat "," (map scalar_str values))%string;
  Converter_snake_to_camel := fun s => s;
  obj_hasattr := hasattr;
  obj_type_value := type_value;
  obj_level_id := field "level_id";
  obj_author := author;
  obj_str := fun o => kind_of o
|}.

(** A friend request that was sent, not received. *)
Definition sent_request : obj :=
  Built "FriendRequest" (PDict [(SStr "id", SInt 9); (SStr "type", SInt 1)])
    [player].

End ConcreteHelpers.

(** * Properties *)

(** ** Decimal texts *)

Module PyFacts.

Import Py.


























End PyFacts.

(** ** The route table against the session *)

Lemma route_attr_undefined {C : Collaborators} (R : Route.table) name w :
  Route.lookup R name = None ->
  forall A (k : string -> M A),
    bind (route_attr R name) k w = (Raise (AttributeError "Route" name), w).
Proof.
  intros H A k. unfold bind, route_attr, lift, Route.getattr. now rewrite H.
Qed.

(** C1.  The literals that the [Route] class defines are, in order, the
    backend paths of section 6, none with a trailing slash; but the class
    does not define every route the session uses: [Route.GET_USER_LIST]
    (in [get_user_list]) and [Route.GET_LEVEL_SCORES] (in [get_leaderboard])
    are among the twenty-four attributes that [gd/session.py] evaluates and
    [gd/utils/routes.py] lacks, so both operations fail with an
    [AttributeError] on every input, before any request is sent. *)
Theorem route_table_misses_session_routes :
  map snd Route.routes = backend_paths
  /\ forallb (fun r => negb (Route.trailing_slash (snd r))) Route.routes = true
  /\ Route.getattr Route.routes "GET_USER_LIST"
     = Raise (AttributeError "Route" "GET_USER_LIST")
  /\ Route.getattr Route.routes "GET_LEVEL_SCORES"
     = Raise (AttributeError "Route" "GET_LEVEL_SCORES")
  /\ nodup string_dec (map snd (Route.undefined_refs Route.routes))
     = [ "NEWGROUNDS_SONG_LISTEN"; "UPLOAD_LEVEL"; "GET_USER_LIST";
         "GET_LEVEL_SCORES"; "GET_USER_TOP"; "LOAD_DATA"; "GD_URL";
         "SAVE_DATA"; "REPORT_LEVEL"; "DELETE_LEVEL"; "UPDATE_LEVEL_DESC";
         "RATE_LEVEL_STARS"; "RATE_LEVEL_DEMON"; "SUGGEST_LEVEL_STARS";
         "LIKE_ITEM"; "SEND_REQUEST"; "READ_REQUEST"; "GET_GAUNTLETS";
         "GET_MAP_PACKS"; "GET_ACC_COMMENTS"; "UNBLOCK_USER"; "BLOCK_USER";
         "REMOVE_FRIEND"; "UPDATE_USER_SCORE" ]
  /\ (forall (C : Collaborators) type client w,
        get_user_list Route.routes type client w
        = (Raise (AttributeError "Route" "GET_USER_LIST"), w))
  /\ (forall (C : Collaborators) level strategy_value client w,
        get_leaderboard Route.routes level strategy_value client w
        = (Raise (AttributeError "Route" "GET_LEVEL_SCORES"), w)).
Proof.
  repeat apply conj.
  1-5: reflexivity.
  all: intros C; intros; now apply route_attr_undefined.
Qed.

(** ** [run_many] *)

Section RunManyFacts.

Variable O : Type.
Implicit Types res : list (value O).

Lemma keep_truthy_filter res : keep_truthy res = filter truthy res.
Proof.
  induction res as [|elem rest IH]; simpl; [reflexivity|].
  now rewrite IH.
Qed.

Lemma all_iterable_forallb res : all_iterable res = forallb _iterable res.
Proof.
  induction res as [|elem rest IH]; simpl; [reflexivity|].
  rewrite IH. now destruct (_iterable elem).
Qed.

Lemma py_iter_elements (x : value O) :
  _iterable x = true -> py_iter x = Return (elements x).
Proof. destruct x; simpl; intros H; try discriminate H; reflexivity. Qed.

Lemma chain_from_iterable_concat res :
  forallb _iterable res = true ->
  chain_from_iterable res = Return (List.concat (map elements res)).
Proof.
  induction res as [|it rest IH]; simpl; intros H; [reflexivity|].
  apply andb_true_iff in H as [Hit Hrest].
  now rewrite (py_iter_elements it Hit), (IH Hrest).
Qed.

Lemma run_many_results_spec res :
  run_many_results res
  = Return (if forallb _iterable (filter truthy res)
            then List.concat (map elements (filter truthy res))
            else filter truthy res).
Proof.
  unfold run_many_results.
  rewrite all_iterable_forallb, keep_truthy_filter.
  destruct (forallb _iterable (filter truthy res)) eqn:E.
  - now apply chain_from_iterable_concat.
  - reflexivity.
Qed.

(** Dropping the empty lists does not change the concatenation. *)
Lemma run_many_results_lists (ls : list (list (value O))) :
  run_many_results (map VList ls) = Return (List.concat ls).
Proof.
  rewrite run_many_results_spec.
  assert (H : forallb _iterable (filter truthy (map VList ls)) = true
              /\ List.concat (map elements (filter truthy (map VList ls)))
                 = List.concat ls).
  { induction ls as [|l ls [IH1 IH2]]; [split; reflexivity|].
    destruct l as [|v l]; simpl.
    - split; assumption.
    - rewrite IH1, IH2. split; reflexivity. }
  destruct H as [-> ->]. reflexivity.
Qed.

End RunManyFacts.

(** C2.  [run_many] gathers the results of its tasks in their order, drops
    every result that is false in a boolean context, and then, when all the
    remaining results are iterable, returns the concatenation of their
    elements (one level of nesting removed), and otherwise returns the
    remaining results as they are.  On a run of lists the result is the
    concatenation of the lists; [[[], [1, 2], [3]]] gives [[1, 2, 3]] and
    [[1, 2, 3]] gives [[1, 2, 3]]. *)
Theorem run_many_drops_then_flattens (O : Type) :
  (forall (tasks : list (M (value O))) (w : world),
     run_many tasks w
     = match gather tasks w with
       | (Return res, w') =>
           let kept := filter truthy res in
           (Return (if forallb _iterable kept
                    then List.concat (map elements kept)
                    else kept), w')
       | (Raise e, w') => (Raise e, w')
       end)
  /\ (forall ls : list (list (value O)),
        run_many_results (map VList ls) = Return (List.concat ls))
  /\ run_many_results (O := O)
       [VList []; VList [VInt 1; VInt 2]; VList [VInt 3]]
     = Return [VInt 1; VInt 2; VInt 3]
  /\ run_many_results (O := O) [VInt 1; VInt 2; VInt 3]
     = Return [VInt 1; VInt 2; VInt 3].
Proof.
  repeat apply conj; try reflexivity.
  - intros tasks w. unfold run_many, bind, lift.
    destruct (gather tasks w) as [[res|e] w']; [|reflexivity].
    now rewrite run_many_results_spec.
  - apply run_many_results_lists.
Qed.

(** ** [upload_level]: the password field *)



(** The three cases the specification lists. *)
Example upload_level_pwd_examples :
  upload_level_pwd true None = Return 1
  /\ upload_level_pwd false None = Return 0
  /\ upload_level_pwd false (Some (PwInt 42)) = Return 1000042.
Proof. repeat apply conj; vm_compute; reflexivity. Qed.

(** ** The transport *)

Lemma http_request_answer route parameters codes raise_errors custom_base w
  body rest :
  replies w = body :: rest ->
  http_request route parameters codes raise_errors custom_base w
  = (match bare_int body with
     | Some n =>
         match code_lookup codes n with
         | Some e => if raise_errors then Raise e else Return (SInt n)
         | None => Return (SInt n)
         end
     | None => Return (SStr body)
     end,
     issue {| req_route := route; req_parameters := parameters;
              req_custom_base := custom_base |} w rest).
Proof.
  intros H. unfold http_request. rewrite H.
  destruct (bare_int body) as [n|]; [|reflexivity].
  destruct (code_lookup codes n); [|reflexivity].
  now destruct raise_errors.
Qed.

(** A body that is empty, or that starts with the section separator, is not
    a bare integer. *)
Lemma bare_int_empty : bare_int "" = None.
Proof. reflexivity. Qed.

Lemma bare_int_hash tail : bare_int (String "#" tail) = None.
Proof. reflexivity. Qed.

Lemma bind_http {A} route parameters codes raise_errors custom_base
  (k : scalar -> M A) w body rest :
  replies w = body :: rest ->
  bind (http_request route parameters codes raise_errors custom_base) k w
  = let w' := issue {| req_route := route; req_parameters := parameters;
                       req_custom_base := custom_base |} w rest in
    match bare_int body with
    | Some n =>
        match code_lookup codes n with
        | Some e => if raise_errors then (Raise e, w') else k (SInt n) w'
        | None => k (SInt n) w'
        end
    | None => k (SStr body) w'
    end.
Proof.
  intros H. unfold bind. rewrite (http_request_answer _ _ _ _ _ _ _ _ H).
  destruct (bare_int body) as [n|]; [|reflexivity].
  destruct (code_lookup codes n); [|reflexivity].
  now destruct raise_errors.
Qed.

Lemma bind_http_silent {A} route parameters raise_errors custom_base
  (k : scalar -> M A) w body rest :
  replies w = body :: rest ->
  bind (http_request route parameters [] raise_errors custom_base) k w
  = k (reply_of body)
      (issue {| req_route := route; req_parameters := parameters;
                req_custom_base := custom_base |} w rest).
Proof.
  intros H. rewrite (bind_http _ _ _ _ _ _ _ _ _ H). unfold reply_of.
  now destruct (bare_int body).
Qed.

Lemma bind_lift_return {A B} (a : A) (k : A -> M B) w :
  bind (lift (Return a)) k w = k a w.
Proof. reflexivity. Qed.

Ltac route_defined H :=
  unfold bind, route_attr, lift, Route.getattr; rewrite ?H; cbn [of_option].

(** ** [rate_demon] *)

(** C9.  The class [Route] has no [RATE_LEVEL_DEMON]: for every level,
    rating, flag, client and backend, [rate_demon] stops at the attribute
    access of line 638 with [AttributeError], before any request, and
    returns none of [False], [True] and [None]. *)
Theorem rate_demon_stops_at_the_route {C : Collaborators} level
  demon_rating_value mod_ client w :
  Route.lookup Route.routes "RATE_LEVEL_DEMON" = None
  /\ rate_demon Route.routes level demon_rating_value mod_ client w
     = (Raise (AttributeError "Route" "RATE_LEVEL_DEMON"), w)
  /\ (forall r : option bool,
        fst (rate_demon Route.routes level demon_rating_value mod_ client w)
        <> Return r).
Proof.
  assert (E : rate_demon Route.routes level demon_rating_value mod_ client w
              = (Raise (AttributeError "Route" "RATE_LEVEL_DEMON"), w))
    by now apply route_attr_undefined.
  repeat apply conj; [reflexivity | exact E |].
  intros r. rewrite E. discriminate.
Qed.

(** Past the attribute access, that is for a table that has the route, the
    code is three-valued: with the backend answering [body], [rate_demon]
    gives [False] for an empty or zero reply, [True] for a positive
    integer, and [None] - neither boolean - for a negative integer other
    than -2 (and for any non-empty text); -2 raises [MissingAccess]. *)
Lemma rate_demon_past_the_route {C : Collaborators} (R : Route.table)
  level demon_rating_value mod_ client w route body rest :
  Route.lookup R "RATE_LEVEL_DEMON" = Some route ->
  replies w = body :: rest ->
  fst (rate_demon R level demon_rating_value mod_ client w)
  = match reply_of body with
    | SInt n =>
        if n =? -2 then
          Raise (MissingAccess
                   "Attempt to rate as mod without mod permissions.")
        else if n =? 0 then Return (Some false)
        else if 0 <? n then Return (Some true)
        else Return None
    | SStr s => if Py.str_bool s then Return None else Return (Some false)
    | SNone => Return (Some false)
    end.
Proof.
  intros Hr Hw. unfold rate_demon. route_defined Hr.
  rewrite (http_request_answer _ _ _ _ _ _ _ _ Hw). unfold reply_of.
  destruct (bare_int body) as [n|]; cbn [code_lookup].
  - rewrite (Z.eqb_sym (-2) n).
    destruct (Z.eqb_spec n (-2)) as [->|Hn2]; [reflexivity|].
    cbn [scalar_bool is_int int_gt andb].
    destruct (Z.eqb_spec n 0) as [->|Hn0]; [reflexivity|].
    cbn [negb]. now destruct (0 <? n).
  - cbn [scalar_bool is_int andb]. now destruct (Py.str_bool body).
Qed.

(** ** [search_levels_on_page]: the login check *)

(** C8.  Against a client that is not logged in, a search by user with no
    user given, and a search among friends, fail with the must-be-logged-in
    condition and leave the world as it was: no request has been issued. *)
Theorem search_levels_on_page_requires_login {C : Collaborators}
  (R : Route.table) page query toggles user gauntlet raise_errors client w :
  client_is_logged client = false ->
  search_levels_on_page R page query
    (Some {| strategy := BY_USER; toggles := toggles |}) None gauntlet
    raise_errors client w
  = (Raise (ClientNotLogged "search_levels_on_page(...)"), w)
  /\ search_levels_on_page R page query
       (Some {| strategy := FRIENDS; toggles := toggles |}) user gauntlet
       raise_errors client w
     = (Raise (ClientNotLogged "search_levels_on_page(..., client=client)"),
        w).
Proof.
  intros H. unfold search_levels_on_page, check_logged_obj, bind, lift.
  cbn [strategy SearchStrategy_eqb]. rewrite H. split; reflexivity.
Qed.

(** ** [read_message] *)

Lemma read_private_message_route :
  Route.lookup Route.routes "READ_PRIVATE_MESSAGE"
  = Some "downloadGJMessage20".
Proof. reflexivity. Qed.

(** C6.  [read_message] never returns a decoded body: line 857 binds [resp]
    to the configured parser without calling [parse] on the reply, and the
    parser has no [get].  Whatever the backend answers, the call ends in an
    error - the one registered for -1, or the [AttributeError] - and no
    message with a cached body comes out of it. *)
Theorem read_message_never_decodes {C : Collaborators} msg client w :
  fst (read_message Route.routes msg client w)
  = Raise match replies w with
          | [] => TransportError "no reply"
          | body :: _ =>
              match bare_int body with
              | Some (-1) =>
                  MissingAccess ("Failed to read a message: "
                                 ++ msg_repr msg ++ ".")
              | _ => AttributeError "Parser" "get"
              end
          end.
Proof.
  unfold read_message. route_defined read_private_message_route.
  destruct (replies w) as [|body rest] eqn:Hw.
  - unfold http_request. now rewrite Hw.
  - rewrite (http_request_answer _ _ _ _ _ _ _ _ Hw).
    destruct (bare_int body) as [n|]; [|reflexivity].
    cbn [code_lookup]. rewrite (Z.eqb_sym (-1) n).
    destruct (Z.eqb_spec n (-1)) as [->|Hn]; [reflexivity|].
    cbn [fst object_get]. destruct n as [|p|p]; try reflexivity.
    destruct p; try reflexivity. congruence.
Qed.

(** ** [load_save] *)

Section LoadSave.

Context {C : Collaborators}.

Lemma load_save_try_flag resp client :
  (fst (load_save_try resp client) = true
   /\ stages_succeed resp client (snd (load_save_try resp client)))
  \/ (fst (load_save_try resp client) = false
      /\ forall client', ~ stages_succeed resp client client').
Proof.
  unfold load_save_try, stages_succeed.
  destruct (str_split resp ";") as [parts|e] eqn:E1; cbn [rbind];
    [|right; split; [reflexivity|];
      intros c' (m & l & t & a & d & s & c1 & H & _); congruence].
  destruct parts as [|main [|levels tail]]; cbn [rbind fst snd];
    try (right; split; [reflexivity|];
         intros c' (m & l & t & a & d & s & c1 & H & _); congruence).
  destruct (save_from_string_async main levels false) as [api|e] eqn:E2;
    cbn [rbind];
    [|right; split; [reflexivity|];
      intros c' (m & l & t & a & d & s & c1 & H & H2 & _); congruence].
  destruct (save_main_dump api) as [dumped|e] eqn:E3; cbn [rbind];
    [|right; split; [reflexivity|];
      intros c' (m & l & t & a & d & s & c1 & H & H2 & H3 & _); congruence].
  destruct (SaveParser_aio_parse dumped) as [save|e] eqn:E4; cbn [rbind];
    [|right; split; [reflexivity|];
      intros c' (m & l & t & a & d & s & c1 & H & H2 & H3 & H4 & _);
      congruence].
  destruct (client_upd_save_api api client) as [client1|e] eqn:E5;
    [|right; split; [reflexivity|];
      intros c' (m & l & t & a & d & s & c1 & H & H2 & H3 & H4 & H5 & _);
      congruence].
  destruct (client_upd_save save client1) as [client2|e] eqn:E6;
    [|right; split; [reflexivity|];
      intros c' (m & l & t & a & d & s & c1 & H & H2 & H3 & H4 & H5 & H6);
      congruence].
  left. split; [reflexivity|]. cbn [snd].
  exists main, levels, tail, api, dumped, save, client1.
  repeat split; assumption.
Qed.

End LoadSave.

(** C5.  The class [Route] has no [GD_URL] (and no [LOAD_DATA]): for every
    client and backend, [load_save] stops at the attribute access of line
    428 with [AttributeError], outside the [try] block and before any
    request: it returns no flag. *)
Theorem load_save_stops_at_the_route {C : Collaborators} client w :
  Route.lookup Route.routes "GD_URL" = None
  /\ Route.lookup Route.routes "LOAD_DATA" = None
  /\ load_save Route.routes client w
     = (Raise (AttributeError "Route" "GD_URL"), w)
  /\ (forall flag client',
        fst (load_save Route.routes client w) <> Return (flag, client')).
Proof.
  assert (E : load_save Route.routes client w
              = (Raise (AttributeError "Route" "GD_URL"), w))
    by now apply route_attr_undefined.
  repeat apply conj; [reflexivity | reflexivity | exact E |].
  intros flag client'. rewrite E. discriminate.
Qed.

(** Past the two attribute accesses, that is for a table that has both
    routes, and with the backend answering anything but the registered code
    -11, the code returns a boolean and raises nothing: [True] exactly when
    the split of the reply on [;], the save wrapper, its dump, the save
    parser and the two writes on the client all went through, [False] as
    soon as one of them fails. *)
Lemma load_save_past_the_routes {C : Collaborators}
  (R : Route.table) client w link path body rest :
  Route.lookup R "GD_URL" = Some link ->
  Route.lookup R "LOAD_DATA" = Some path ->
  replies w = body :: rest ->
  bare_int body <> Some (-11) ->
  exists flag client',
    fst (load_save R client w) = Return (flag, client')
    /\ (flag = true <-> stages_succeed (reply_of body) client client')
    /\ (flag = false -> forall c, ~ stages_succeed (reply_of body) client c).
Proof.
  intros Hl Hp Hw Hb.
  assert (E : fst (load_save R client w)
              = Return (load_save_try (reply_of body) client)).
  { unfold load_save. route_defined Hl. route_defined Hp.
    rewrite (http_request_answer _ _ _ _ _ _ _ _ Hw). unfold reply_of.
    destruct (bare_int body) as [n|]; [|reflexivity].
    cbn [code_lookup]. rewrite (Z.eqb_sym (-11) n).
    destruct (Z.eqb_spec n (-11)) as [->|Hn]; [congruence | reflexivity]. }
  exists (fst (load_save_try (reply_of body) client)),
         (snd (load_save_try (reply_of body) client)).
  split; [rewrite E; now destruct (load_save_try (reply_of body) client)|].
  destruct (load_save_try_flag (reply_of body) client) as [[Ht Hs]|[Hf Hn]].
  - rewrite Ht. split; [tauto | congruence].
  - rewrite Hf. split; [|intros _; exact Hn].
    split; [congruence|]. intros Hs. now apply Hn in Hs.
Qed.

(** ** Mappings *)




(** ** The parser on a reply without data *)

Lemma append_snoc cur a x : (cur ++ String a "") ++ x = cur ++ String a x.
Proof. induction cur as [|c cur IH]; simpl; [reflexivity | now rewrite IH]. Qed.

Lemma append_empty_r s : s ++ "" = s.
Proof. induction s as [|c s IH]; simpl; [reflexivity | now rewrite IH]. Qed.

Lemma split_aux_nonempty sep skip cur s : Py.split_aux sep skip cur s <> [].
Proof.
  revert skip cur. induction s as [|a s IH]; intros skip cur; simpl.
  - discriminate.
  - destruct skip; [|apply IH].
    destruct (Py.startswith (String a s) sep); [discriminate | apply IH].
Qed.

(** The first segment of a split on one character. *)
Lemma split_char_head (c : ascii) s : forall cur,
  exists x l,
    Py.split_aux (String c "") 0 cur s = (cur ++ x) :: l
    /\ (x = "" <-> s = "" \/ exists t, s = String c t)
    /\ (l = [] -> x = s).
Proof.
  induction s as [|a s IH]; intros cur.
  - exists "", []. simpl. rewrite append_empty_r. repeat split; auto.
  - simpl. destruct (Ascii.eqb_spec c a) as [->|Hne]; simpl.
    + exists "", (Py.split_aux (String a "") 0 "" s).
      rewrite append_empty_r. repeat split.
      * intros _. right. now exists s.
      * intros E. now apply split_aux_nonempty in E.
    + destruct (IH (cur ++ String a "")) as (x & l & E & _ & Hl).
      exists (String a x), l. rewrite E, append_snoc. repeat split.
      * discriminate.
      * intros [H | [t H]]; [discriminate H | congruence].
      * intros H. now rewrite (Hl H).
Qed.

(** The first [#]-section of a body is empty exactly when the body says "no
    data". *)
Lemma first_section (body : string) :
  exists h l, Py.split body "#" = h :: l /\ (h = "" <-> no_data body).
Proof.
  destruct (split_char_head "#" body "") as (x & l & E & Hx & _).
  exists x, l. split; [exact E | exact Hx].
Qed.

(** The split of a section on [|] is empty, as [check_empty] sees it,
    exactly when the section is. *)
Lemma messages_parser_sentinel body :
  Parser.parse messages_parser (reply_of body) = Return (PAtom SNone)
  <-> no_data body.
Proof.
  unfold reply_of. split.
  - destruct (bare_int body) as [n|]; [discriminate|].
    destruct (first_section body) as (h & l & E & Hh).
    unfold Parser.parse, messages_parser. cbn. rewrite E. cbn.
    destruct h; [intros _; now apply Hh | discriminate].
  - intros [-> | [t ->]]; reflexivity.
Qed.

Lemma user_search_parser_sentinel body :
  Parser.parse user_search_parser (reply_of body) = Return (PAtom SNone)
  <-> no_data body.
Proof.
  unfold reply_of. split.
  - destruct (bare_int body) as [n|]; [discriminate|].
    destruct (first_section body) as (h & l & E & Hh).
    unfold Parser.parse, user_search_parser.
    cbn [Parser.actions Parser.split_f Parser.need_map Parser.ext Parser.new
         Parser.split Parser.take Parser.check_empty Parser.should_map app
         Parser.run Parser.split_value rbind].
    rewrite E.
    cbn [Parser.take_value nth_error rbind Parser.run Parser.split_value
         Parser.is_empty scalar_bool].
    destruct h; [intros _; now apply Hh | discriminate].
  - intros [-> | [t ->]]; reflexivity.
Qed.

(** ** [get_user] *)

(** C10.  When the profile lookup has succeeded (its reply parses to a
    mapping) and full data are asked for, [get_user] returns [None] - no
    user, no error - if the reply of the user search parses to the
    sentinel; if that reply parses to a mapping, the name, icon and icon
    type of the profile are replaced by those of the search, and the user
    built from the merged mapping is returned. *)
Theorem get_user_none_on_empty_search {C : Collaborators}
  account_id client w primary secondary rest d :
  replies w = primary :: secondary :: rest ->
  Parser.parse user_info_parser (reply_of primary) = Return (PDict d) ->
  (Parser.parse user_search_parser (reply_of secondary) = Return (PAtom SNone)
   -> fst (get_user Route.routes account_id false client w) = Return None)
  /\ (forall d2,
        Parser.parse user_search_parser (reply_of secondary)
        = Return (PDict d2) ->
        fst (get_user Route.routes account_id false client w)
        = Return
            (Some (user_convert
                     (PDict
                        (dict_update d
                           [(SInt Index_USER_NAME,
                             dict_get d2 (SInt Index_USER_NAME));
                            (SInt Index_USER_ICON,
                             dict_get d2 (SInt Index_USER_ICON));
                            (SInt Index_USER_ICON_TYPE,
                             dict_get d2 (SInt Index_USER_ICON_TYPE))]))
                     client))).
Proof.
  intros Hw Hp.
  assert (Hb : bare_int primary = None).
  { unfold reply_of in Hp. destruct (bare_int primary); [discriminate Hp|].
    reflexivity. }
  unfold reply_of in Hp. rewrite Hb in Hp. unfold user_info_parser in Hp.
  assert (E : forall new_resp,
             Parser.parse user_search_parser (reply_of secondary)
             = Return new_resp ->
             fst (get_user Route.routes account_id false client w)
             = match new_resp with
               | PAtom SNone => Return None
               | PDict d2 =>
                   Return
                     (Some (user_convert
                              (PDict
                                 (dict_update d
                                    [(SInt Index_USER_NAME,
                                      dict_get d2 (SInt Index_USER_NAME));
                                     (SInt Index_USER_ICON,
                                      dict_get d2 (SInt Index_USER_ICON));
                                     (SInt Index_USER_ICON_TYPE,
                                      dict_get d2 (SInt Index_USER_ICON_TYPE))]))
                              client))
               | _ => Raise (AttributeError (Parser.type_name new_resp) "get")
               end).
  { intros new_resp Hs. unfold user_search_parser in Hs. unfold get_user.
    change (route_attr Route.routes "GET_USER_INFO")
      with (lift (Return "getGJUserInfo20")).
    change (route_attr Route.routes "USER_SEARCH")
      with (lift (Return "getGJUsers20")).
    rewrite bind_lift_return, (bind_http _ _ _ _ _ _ _ _ _ Hw), Hb.
    cbv zeta. rewrite Hp, bind_lift_return. cbn [Parser.get].
    rewrite !bind_lift_return.
    erewrite bind_http_silent by reflexivity.
    rewrite Hs, bind_lift_return.
    destruct new_resp as [[| |]| |]; reflexivity. }
  split.
  - intros Hs. now rewrite (E _ Hs).
  - intros d2 Hs. now rewrite (E _ Hs).
Qed.

(** ** [get_level] and [get_timely] *)





(** ** The listings on a reply without data *)

Lemma defined_lookup (R : Route.table) name :
  Route.defined R name = true -> exists path, Route.lookup R name = Some path.
Proof.
  unfold Route.defined.
  destruct (Route.lookup R name) as [path|]; [now exists path | discriminate].
Qed.

Ltac use_route H :=
  let path := fresh "path" in
  let Hp := fresh "Hp" in
  destruct (defined_lookup _ _ H) as [path Hp];
  unfold route_attr, Route.getattr; rewrite Hp; cbn [of_option];
  rewrite ?bind_lift_return.

Ltac no_data_cases Hnd :=
  destruct Hnd as [-> | [? ->]];
  [rewrite bare_int_empty | rewrite bare_int_hash]; cbv zeta.

Section Listings.

Context {C : Collaborators}.
Variables (R : Route.table) (client : Client) (w : world).
Variables (body : string) (rest : list string).
Hypothesis Hw : replies w = body :: rest.
Hypothesis Hnd : no_data body.

Lemma get_page_messages_no_data sent_or_inbox page raise_errors :
  Route.defined R "GET_PRIVATE_MESSAGES" = true ->
  str_in sent_or_inbox ["inbox"; "sent"] = true ->
  fst (get_page_messages R sent_or_inbox page raise_errors client w)
  = Return [].
Proof.
  intros Hr Hin. unfold get_page_messages. rewrite Hin. cbn [assert].
  rewrite bind_lift_return. use_route Hr.
  rewrite (bind_http _ _ _ _ _ _ _ _ _ Hw).
  no_data_cases Hnd; reflexivity.
Qed.

Lemma retrieve_page_comments_no_data user type page raise_errors
  strategy_value :
  Route.defined R (if String.eqb type "level" then "GET_COMMENT_HISTORY"
                   else "GET_ACC_COMMENTS") = true ->
  0 <= page ->
  str_in type ["profile"; "level"] = true ->
  fst (retrieve_page_comments R user type page raise_errors strategy_value
         client w)
  = if raise_errors && Py.str_bool body
    then Raise (NothingFound "gd.Comment")
    else Return [].
Proof.
  intros Hr Hpage Htype. unfold retrieve_page_comments.
  replace (0 <=? page) with true by (symmetry; now apply Z.leb_le).
  rewrite Htype. cbn [assert]. rewrite !bind_lift_return.
  destruct (String.eqb type "level"); use_route Hr;
    rewrite (bind_http _ _ _ _ _ _ _ _ _ Hw);
    no_data_cases Hnd; destruct raise_errors; reflexivity.
Qed.

Lemma search_levels_on_page_empty page query filters user gauntlet
  raise_errors :
  Route.defined R "LEVEL_SEARCH" = true ->
  body = "" ->
  (search_needs_login filters user = true ->
   client_is_logged client = true) ->
  fst (search_levels_on_page R page query filters user gauntlet raise_errors
         client w)
  = Return [].
Proof.
  intros Hr Hb Hl. subst body.
  unfold search_levels_on_page, check_logged_obj.
  unfold search_needs_login in Hl.
  destruct (strategy match filters with
                     | None => Filters_setup_empty
                     | Some f => f
                     end);
    destruct user as [[n|o]|]; cbn [SearchStrategy_eqb is_none] in *;
    rewrite ?(Hl eq_refl); cbn [rbind]; rewrite bind_lift_return;
    use_route Hr;
    rewrite (bind_http _ _ _ _ _ _ _ _ _ Hw); reflexivity.
Qed.

End Listings.

(** C4 (amended).  Let the backend answer a reply without data: an empty
    body, or a body whose first section is empty.  On the routes that the
    class [Route] defines, [get_page_messages] returns the empty list,
    whatever [raise_errors] is; [retrieve_page_comments] for the comments of
    type 'level' returns the empty list on an empty body, and on an empty
    first section returns the empty list when [raise_errors] is off and
    raises [NothingFound] when it is on; [search_levels_on_page] returns the
    empty list on an empty body, for a client that passes its login
    check. *)
Theorem listing_no_data {C : Collaborators} client w body rest :
  replies w = body :: rest ->
  no_data body ->
  (forall sent_or_inbox page raise_errors,
     str_in sent_or_inbox ["inbox"; "sent"] = true ->
     fst (get_page_messages Route.routes sent_or_inbox page raise_errors
            client w)
     = Return [])
  /\ (forall user page raise_errors strategy_value,
        0 <= page ->
        fst (retrieve_page_comments Route.routes user "level" page
               raise_errors strategy_value client w)
        = if raise_errors && Py.str_bool body
          then Raise (NothingFound "gd.Comment")
          else Return [])
  /\ (forall page query filters user gauntlet raise_errors,
        body = "" ->
        (search_needs_login filters user = true ->
         client_is_logged client = true) ->
        fst (search_levels_on_page Route.routes page query filters user
               gauntlet raise_errors client w)
        = Return []).
Proof.
  intros Hw Hnd. repeat apply conj; intros.
  - now apply (get_page_messages_no_data Route.routes client w body rest).
  - now apply (retrieve_page_comments_no_data Route.routes client w body
                 rest).
  - now apply (search_levels_on_page_empty Route.routes client w body rest).
Qed.

(** The listing of map packs is not among them: the class has no
    [GET_MAP_PACKS], and the call stops at the attribute access, before any
    request. *)
Remark get_page_map_packs_stops_at_the_route {C : Collaborators} page
  raise_errors client w :
  get_page_map_packs Route.routes page raise_errors client w
  = (Raise (AttributeError "Route" "GET_MAP_PACKS"), w).
Proof. now apply route_attr_undefined. Qed.

(** [get_level_comments] has no test for a reply without data: on an empty
    body the unpacking of line 1050 fails. *)
Remark get_level_comments_empty_body {C : Collaborators} level strategy_value
  amount client w rest :
  replies w = "" :: rest ->
  fst (get_level_comments Route.routes level strategy_value amount client w)
  = Raise (ValueError "not enough values to unpack").
Proof.
  intros Hw. unfold get_level_comments.
  change (route_attr Route.routes "GET_COMMENTS")
    with (lift (Return "getGJAccountComments20")).
  rewrite bind_lift_return, (bind_http _ _ _ _ _ _ _ _ _ Hw). reflexivity.
Qed.

(** * Further properties *)

(** ** [upload_level]: the range of the password field *)





(** ** Which operations can fail an assertion *)

Lemma quiet_rbind {A B} (r : result A) (f : A -> result B) :
  quiet r -> (forall a, quiet (f a)) -> quiet (rbind r f).
Proof. destruct r as [a|e]; simpl; auto. Qed.

Lemma quiet_of_option {A} e (o : option A) :
  is_assertion e = false -> quiet (of_option e o).
Proof. destruct o; simpl; auto. Qed.

Lemma never_asserts_bind {A B} (m : M A) (k : A -> M B) :
  never_asserts m -> (forall a, never_asserts (k a)) ->
  never_asserts (bind m k).
Proof.
  intros Hm Hk w. unfold bind. specialize (Hm w).
  destruct (m w) as [[a|e] w1]; simpl in *; [apply Hk | exact Hm].
Qed.

Lemma never_asserts_lift {A} (r : result A) : quiet r -> never_asserts (lift r).
Proof. intros H w. exact H. Qed.

Lemma never_asserts_bind_lift {A B} (r : result A) (k : A -> M B) :
  quiet r -> (forall a, r = Return a -> never_asserts (k a)) ->
  never_asserts (bind (lift r) k).
Proof.
  intros Hr Hk w. destruct r as [a|e]; [exact (Hk a eq_refl w) | exact Hr].
Qed.

Lemma quiet_tuple_index t x : quiet (tuple_index t x).
Proof.
  induction t as [|y t IH]; simpl; [reflexivity|].
  destruct (String.eqb y x); [exact I|].
  apply quiet_rbind; [exact IH | intros; exact I].
Qed.

Lemma timely_index type i :
  tuple_index ["daily"; "weekly"] type = Return i -> i = 0 \/ i = 1.
Proof.
  cbn [tuple_index]. destruct (String.eqb "daily" type).
  - intros E. injection E as E. now left.
  - destruct (String.eqb "weekly" type); cbn [rbind].
    + intros E. injection E as E. right. lia.
    + discriminate.
Qed.

Lemma never_asserts_ret {A} (a : A) : never_asserts (ret a).
Proof. intros w. exact I. Qed.

Lemma never_asserts_raise {A} e :
  is_assertion e = false -> never_asserts (@raise A e).
Proof. intros H w. exact H. Qed.

Lemma never_asserts_route {C : Collaborators} R name :
  never_asserts (route_attr R name).
Proof. apply never_asserts_lift. now apply quiet_of_option. Qed.

Lemma never_asserts_http route parameters codes raise_errors custom_base :
  (forall n e, code_lookup codes n = Some e -> is_assertion e = false) ->
  never_asserts (http_request route parameters codes raise_errors custom_base).
Proof.
  intros Hc w. unfold http_request.
  destruct (replies w) as [|body rest]; [reflexivity|].
  destruct (bare_int body) as [n|]; [|exact I].
  destruct (code_lookup codes n) as [e|] eqn:E; [|exact I].
  destruct raise_errors; [|exact I]. exact (Hc _ _ E).
Qed.

Lemma quiet_split_value delim v : quiet (Parser.split_value delim v).
Proof. destruct v as [[| |]| |]; exact I || reflexivity. Qed.

Lemma quiet_take_value index v : quiet (Parser.take_value index v).
Proof.
  destruct v as [[| |s]|l|]; simpl; try reflexivity.
  - now destruct (String.get index s).
  - now destruct (nth_error l index).
Qed.

Lemma quiet_run acts : forall v, quiet (Parser.run acts v).
Proof.
  induction acts as [|[delim|index|] acts IH]; intros v; simpl.
  - exact I.
  - apply quiet_rbind; [apply quiet_split_value | auto].
  - apply quiet_rbind; [apply quiet_take_value | auto].
  - destruct (Parser.is_empty v); [exact I | apply IH].
Qed.

Lemma quiet_parse p raw : quiet (Parser.parse p raw).
Proof.
  unfold Parser.parse. apply quiet_rbind; [apply quiet_run|].
  intros [v|]; [|exact I].
  apply quiet_rbind.
  - destruct (Parser.split_f p); [apply quiet_split_value | exact I].
  - intros v'. destruct (Parser.need_map p); [|exact I].
    destruct v'; simpl; exact I || reflexivity.
Qed.

Lemma quiet_get v k : quiet (Parser.get v k).
Proof. destruct v as [[| |]| |]; exact I || reflexivity. Qed.

Lemma quiet_str_split resp sep : quiet (str_split resp sep).
Proof. destruct resp; exact I || reflexivity. Qed.

Lemma quiet_index {A} (l : list A) i : quiet (index l i).
Proof. now apply quiet_of_option. Qed.

Lemma quiet_mapM {A B} (f : A -> result B) l :
  (forall a, quiet (f a)) -> quiet (mapM f l).
Proof.
  intros Hf. induction l as [|a l IH]; simpl; [exact I|].
  apply quiet_rbind; [apply Hf|]. intros b.
  apply quiet_rbind; [exact IH|]. intros bs. exact I.
Qed.

Lemma missing_access_codes n msg k e :
  code_lookup [(n, MissingAccess msg)] k = Some e -> is_assertion e = false.
Proof.
  simpl. destruct (n =? k); [|discriminate]. now intros [= <-].
Qed.

(** Past its assertion, [get_level] fails no other. *)
Lemma get_level_quiet {C : Collaborators} R level_id timetuple client :
  -2 <= level_id -> never_asserts (get_level R level_id timetuple client).
Proof.
  intros Hid. unfold get_level.
  rewrite Z.geb_leb.
  replace (-2 <=? level_id) with true by (symmetry; apply Z.leb_le; lia).
  destruct timetuple as [[type number] cooldown].
  apply never_asserts_bind; [apply never_asserts_lift; exact I|]. intros _.
  apply never_asserts_bind; [apply never_asserts_route|]. intros route.
  apply never_asserts_bind;
    [apply never_asserts_http; intros n e; apply missing_access_codes|].
  intros resp.
  apply never_asserts_bind;
    [apply never_asserts_lift, quiet_parse|]. intros level_data.
  apply never_asserts_bind; [apply never_asserts_lift, quiet_get|].
  intros real_id.
  apply never_asserts_bind; [apply never_asserts_route|]. intros route2.
  apply never_asserts_bind;
    [apply never_asserts_http; intros n e; apply missing_access_codes|].
  intros resp2.
  apply never_asserts_bind; [apply never_asserts_lift, quiet_str_split|].
  intros sections.
  apply never_asserts_bind; [apply never_asserts_lift, quiet_index|].
  intros song_data.
  apply never_asserts_bind.
  { apply never_asserts_lift. destruct (negb (Py.str_bool song_data)).
    - apply quiet_rbind; [apply quiet_get | intros; exact I].
    - apply quiet_rbind; [apply quiet_parse | intros; exact I]. }
  intros song.
  apply never_asserts_bind; [apply never_asserts_lift, quiet_index|].
  intros creator_data.
  apply never_asserts_bind.
  { apply never_asserts_lift. destruct (negb (Py.str_bool creator_data));
      [exact I|].
    destruct (Py.split creator_data ":") as [|a [|b [|c [|d l]]]];
      exact I || reflexivity. }
  intros [[id name] account_id]. apply never_asserts_ret.
Qed.

(** [get_level] fails its assertion exactly for identifiers below -2, and
    then before any request; [get_timely], which asks for the level -1 or
    -2, never fails an assertion. *)
Theorem get_level_asserts_below_minus_two {C : Collaborators} :
  (forall R level_id timetuple client w,
     (exists what,
        fst (get_level R level_id timetuple client w)
        = Raise (AssertionError what))
     <-> level_id < -2)
  /\ (forall R level_id timetuple client w,
        level_id < -2 -> snd (get_level R level_id timetuple client w) = w)
  /\ (forall R type client w what,
        fst (get_timely R type client w) <> Raise (AssertionError what)).
Proof.
  repeat apply conj.
  - intros R level_id timetuple client w. split.
    + intros [what E]. destruct (Z.lt_ge_cases level_id (-2)) as [Hlt|Hge];
        [exact Hlt|].
      pose proof (get_level_quiet R level_id timetuple client Hge w) as Q.
      rewrite E in Q. discriminate Q.
    + intros Hlt. exists "level_id >= -2". unfold get_level.
      rewrite Z.geb_leb.
      replace (-2 <=? level_id) with false
        by (symmetry; apply Z.leb_gt; lia).
      reflexivity.
  - intros R level_id timetuple client w Hlt. unfold get_level.
    rewrite Z.geb_leb.
    replace (-2 <=? level_id) with false by (symmetry; apply Z.leb_gt; lia).
    reflexivity.
  - intros R type client w what E.
    assert (Q : never_asserts (get_timely R type client)).
    { unfold get_timely.
      apply never_asserts_bind_lift; [apply quiet_tuple_index|].
      intros i Hi. apply timely_index in Hi.
      apply never_asserts_bind; [apply never_asserts_route|]. intros route.
      apply never_asserts_bind;
        [apply never_asserts_http; intros n e; apply missing_access_codes|].
      intros resp. destruct (negb (scalar_bool resp));
        [now apply never_asserts_raise|].
      apply never_asserts_bind; [apply never_asserts_lift, quiet_str_split|].
      intros parts.
      apply never_asserts_bind.
      { apply never_asserts_lift, quiet_mapM. intros s.
        now apply quiet_of_option. }
      intros [|num [|cooldown others]]; try now apply never_asserts_raise.
      apply never_asserts_bind; [|intros; apply never_asserts_ret].
      apply get_level_quiet. lia. }
    specialize (Q w). rewrite E in Q. discriminate Q.
Qed.

(** ** [get_timely] when there is no timely level *)

(** When the backend answers [get_timely] with an empty body or 0, the
    call raises the "being refreshed" [MissingAccess] after its one request,
    and [get_level] is not called; a type that is neither 'daily' nor
    'weekly' fails before the request. *)
Theorem get_timely_being_refreshed {C : Collaborators} type client w body
  rest :
  replies w = body :: rest ->
  scalar_bool (reply_of body) = false ->
  get_timely Route.routes type client w
  = match tuple_index ["daily"; "weekly"] type with
    | Return i =>
        (Raise (MissingAccess
                  ("Failed to fetch a " ++ type
                   ++ " level. Most likely it is being refreshed.")),
         issue {| req_route := "getGJDailyLevel";
                  req_parameters :=
                    Params.create_new "normal" |> Params.put_weekly (SInt i)
                    |> Params.finish;
                  req_custom_base := None |} w rest)
    | Raise e => (Raise e, w)
    end.
Proof.
  intros Hw Hf. unfold get_timely.
  destruct (tuple_index ["daily"; "weekly"] type) as [i|e]; [|reflexivity].
  rewrite bind_lift_return.
  change (route_attr Route.routes "GET_TIMELY")
    with (lift (Return "getGJDailyLevel")).
  rewrite bind_lift_return, (bind_http _ _ _ _ _ _ _ _ _ Hw). cbv zeta.
  unfold reply_of in Hf. destruct (bare_int body) as [n|].
  - cbn [code_lookup]. cbn [scalar_bool] in Hf.
    apply negb_false_iff, Z.eqb_eq in Hf. subst n. reflexivity.
  - now rewrite Hf.
Qed.

(** ** [get_user]: one request *)

(** [get_user] sends one request when the backend answers -1 (it raises
    [MissingAccess] with the account identifier) and when only the
    statistics are asked for (it returns the converted reply). *)
Theorem get_user_single_request {C : Collaborators} account_id client w body
  rest :
  replies w = body :: rest ->
  let w' :=
    issue {| req_route := "getGJUserInfo20";
             req_parameters :=
               Params.create_new "normal"
               |> Params.put_definer "user" (SInt account_id)
               |> Params.finish;
             req_custom_base := None |} w rest in
  (bare_int body = Some (-1) ->
   forall return_only_stats,
     get_user Route.routes account_id return_only_stats client w
     = (Raise (MissingAccess ("No users were found with ID: "
                              ++ Py.str_of_int account_id ++ ".")), w'))
  /\ (forall p,
        Parser.parse user_info_parser (reply_of body) = Return p ->
        get_user Route.routes account_id true client w
        = (Return (Some (user_stats_convert p client)), w')).
Proof.
  intros Hw w'. split.
  - intros Hb stats. unfold get_user.
    change (route_attr Route.routes "GET_USER_INFO")
      with (lift (Return "getGJUserInfo20")).
    now rewrite bind_lift_return, (bind_http _ _ _ _ _ _ _ _ _ Hw), Hb.
  - intros p Hp. unfold get_user.
    change (route_attr Route.routes "GET_USER_INFO")
      with (lift (Return "getGJUserInfo20")).
    rewrite bind_lift_return, (bind_http _ _ _ _ _ _ _ _ _ Hw).
    unfold reply_of, user_info_parser in Hp.
    destruct (bare_int body) as [n|]; [discriminate Hp|].
    cbv zeta. now rewrite Hp.
Qed.

(** ** Lists of results *)

Lemma mapM_total {A B} (f : A -> result B) (g : A -> B) l :
  (forall a, f a = Return (g a)) -> mapM f l = Return (map g l).
Proof.
  intros Hf. induction l as [|a l IH]; simpl; [reflexivity|].
  now rewrite Hf, IH.
Qed.

Lemma mapM_all {A B} (f : A -> result B) (P : B -> Prop) l :
  (forall a, exists b, f a = Return b /\ P b) ->
  exists bs,
    mapM f l = Return bs /\ List.length bs = List.length l /\ Forall P bs.
Proof.
  intros Hf. induction l as [|a l (bs & E & Hl & HP)]; simpl.
  - exists []. repeat split; constructor.
  - destruct (Hf a) as (b & Eb & Pb). rewrite Eb, E. exists (b :: bs).
    simpl. repeat split; [now rewrite Hl | now constructor].
Qed.

(** ** [search_levels_on_page]: the shape of the reply *)

Ltac pass_login Hl :=
  unfold search_levels_on_page, check_logged_obj;
  unfold search_needs_login in Hl;
  destruct (strategy match _ with
                     | None => Filters_setup_empty
                     | Some f => f
                     end);
  match goal with
  | user : option (Z + _) |- _ => destruct user as [[?|?]|]
  end;
  cbn [SearchStrategy_eqb is_none] in *;
  rewrite ?(Hl eq_refl); cbn [rbind]; rewrite bind_lift_return;
  change (route_attr Route.routes "LEVEL_SEARCH")
    with (lift (Return "getGJLevels21"));
  rewrite bind_lift_return.

(** A textual reply of three [#]-sections or more makes
    [search_levels_on_page] return one level for each non-empty
    [|]-segment of the first section; a non-empty one of fewer sections
    fails the unpacking of line 521. *)
Theorem search_levels_on_page_sections {C : Collaborators} page query
  filters user gauntlet raise_errors client w body rest :
  replies w = body :: rest ->
  bare_int body = None ->
  (search_needs_login filters user = true ->
   client_is_logged client = true) ->
  (forall lvdata cdata sdata more,
     Py.split body "#" = lvdata :: cdata :: sdata :: more ->
     exists levels,
       fst (search_levels_on_page Route.routes page query filters user
              gauntlet raise_errors client w)
       = Return levels
       /\ List.length levels
          = List.length (filter _is_not_empty (Py.split lvdata "|")))
  /\ (Py.str_bool body = true ->
      (List.length (Py.split body "#") < 3)%nat ->
      fst (search_levels_on_page Route.routes page query filters user
             gauntlet raise_errors client w)
      = Raise (ValueError "not enough values to unpack")).
Proof.
  intros Hw Hb Hl. split.
  - intros lvdata cdata sdata more Hs.
    assert (Hne : Py.str_bool body = true).
    { destruct body; [discriminate Hs | reflexivity]. }
    pass_login Hl;
      rewrite (bind_http _ _ _ _ _ _ _ _ _ Hw), Hb; cbv zeta;
      cbn [scalar_bool]; rewrite Hne; cbn [negb str_split];
      rewrite bind_lift_return, Hs; cbn [firstn];
      (erewrite mapM_total by (intros s; reflexivity));
      rewrite bind_lift_return; unfold lift; cbn [fst];
      match goal with
      | |- exists levels, mapM ?f ?l = _ /\ _ =>
          destruct (mapM_all f (fun _ => True) l) as (bs & E & Hlen & _);
          [|exists bs; split; [exact E | exact Hlen]]
      end;
      intros lv; cbn [Parser.parse Parser.actions Parser.run Parser.new
                      Parser.with_split Parser.should_map Parser.add_ext
                      Parser.split_f Parser.need_map Parser.ext rbind
                      Parser.split_value Parser.map_value Parser.get];
      match goal with
      | |- context [negb (scalar_bool ?x)] => destruct (negb (scalar_bool x))
      end; cbn [rbind]; eexists; (split; [reflexivity | exact I]).
  - intros Hne Hlen.
    pass_login Hl;
      rewrite (bind_http _ _ _ _ _ _ _ _ _ Hw), Hb; cbv zeta;
      cbn [scalar_bool]; rewrite Hne; cbn [negb str_split];
      rewrite bind_lift_return;
      destruct (Py.split body "#") as [|a [|b [|c l]]];
      try reflexivity; simpl in Hlen; lia.
Qed.

(** ** [get_level]: the sections of the search reply *)

Section GetLevelSearch.

Context {C : Collaborators}.
Variables (level_id type number cooldown : Z) (client : Client) (w : world).
Variables (download search : string) (rest : list string) (d : dict).
Hypothesis Hid : -2 <= level_id.
Hypothesis Hw : replies w = download :: search :: rest.
Hypothesis Hd :
  Parser.parse
    (download_parser [(SInt 101, SInt type); (SInt 102, SInt number);
                      (SInt 103, SInt cooldown)])
    (reply_of download)
  = Return (PDict d).
Hypothesis Hs : bare_int search = None.

(** [get_level] up to the split of the search reply. *)
Lemma get_level_to_sections :
  exists w2,
    get_level Route.routes level_id (type, number, cooldown) client w
    = bind (lift (Return (Py.split search "#")))
        (fun resp =>
           bind (lift (index resp 2))
             (fun song_data =>
                bind (lift (if negb (Py.str_bool song_data)
                            then rbind (Parser.get (PDict d)
                                          (SInt Index_LEVEL_AUDIO_TRACK))
                                   (fun track => Return (to_normal_song track))
                            else rbind (Parser.parse
                                          (Parser.should_map
                                             (Parser.with_split "~|~"
                                                Parser.new))
                                          (SStr song_data))
                                   (fun p => Return (song_convert p))))
                  (fun song =>
                     let song := attach_client client song in
                     bind (lift (index resp 1))
                       (fun creator_data =>
                          bind (lift (if negb (Py.str_bool creator_data)
                                      then Return (SInt 0, SStr "unknown",
                                                   SInt 0)
                                      else
                                        match Py.split creator_data ":" with
                                        | [id; name; account_id] =>
                                            Return (SStr id, SStr name,
                                                    SStr account_id)
                                        | _ =>
                                            Raise (ValueError
                                                     "wrong number of values to unpack")
                                        end))
                            (fun creator_fields =>
                               let '(id, name, account_id) :=
                                 creator_fields in
                               ret (level_convert (PDict d) (Some song)
                                      (abstractuser_convert
                                         (dict_of
                                            [(SStr "id", id);
                                             (SStr "name", name);
                                             (SStr "account_id",
                                              account_id)])
                                         client)
                                      client))))))
        w2.
Proof.
  assert (Hb : bare_int download = None).
  { unfold reply_of in Hd. destruct (bare_int download); [discriminate Hd|].
    reflexivity. }
  unfold reply_of, download_parser in Hd. rewrite Hb in Hd.
  eexists. unfold get_level. rewrite Z.geb_leb.
  replace (-2 <=? level_id) with true by (symmetry; apply Z.leb_le; lia).
  cbn [assert]. rewrite bind_lift_return.
  change (route_attr Route.routes "DOWNLOAD_LEVEL")
    with (lift (Return "downloadGJLevel22")).
  change (route_attr Route.routes "LEVEL_SEARCH")
    with (lift (Return "getGJLevels21")).
  rewrite bind_lift_return, (bind_http _ _ _ _ _ _ _ _ _ Hw), Hb. cbv zeta.
  rewrite Hd, bind_lift_return. cbn [Parser.get].
  rewrite !bind_lift_return.
  erewrite bind_http by reflexivity. rewrite Hs. cbv zeta.
  cbn [str_split]. reflexivity.
Qed.

End GetLevelSearch.

(** [get_level] reads the second and the third [#]-section of the search
    reply: with fewer than three sections it raises [IndexError]. *)
Theorem get_level_needs_three_sections {C : Collaborators} level_id type
  number cooldown client w download search rest d :
  -2 <= level_id ->
  replies w = download :: search :: rest ->
  Parser.parse
    (download_parser [(SInt 101, SInt type); (SInt 102, SInt number);
                      (SInt 103, SInt cooldown)])
    (reply_of download)
  = Return (PDict d) ->
  bare_int search = None ->
  (List.length (Py.split search "#") < 3)%nat ->
  fst (get_level Route.routes level_id (type, number, cooldown) client w)
  = Raise (IndexError "list index out of range").
Proof.
  intros Hid Hw Hd Hs Hlen.
  destruct (get_level_to_sections level_id type number cooldown client w
              download search rest d Hid Hw Hd Hs)
    as [w2 ->].
  rewrite bind_lift_return.
  destruct (Py.split search "#") as [|lvdata [|cdata [|sdata more]]];
    try reflexivity.
  simpl in Hlen. lia.
Qed.

(** When the search reply of [get_level] has an empty song section and an
    empty creator section, the level gets the official song of its audio
    track and the creator 'unknown' with identifiers 0. *)
Theorem get_level_defaults {C : Collaborators} level_id type number cooldown
  client w download search rest d lvdata more :
  -2 <= level_id ->
  replies w = download :: search :: rest ->
  Parser.parse
    (download_parser [(SInt 101, SInt type); (SInt 102, SInt number);
                      (SInt 103, SInt cooldown)])
    (reply_of download)
  = Return (PDict d) ->
  bare_int search = None ->
  Py.split search "#" = lvdata :: "" :: "" :: more ->
  fst (get_level Route.routes level_id (type, number, cooldown) client w)
  = Return
      (level_convert (PDict d)
         (Some (attach_client client
                  (to_normal_song
                     (dict_get d (SInt Index_LEVEL_AUDIO_TRACK)))))
         (abstractuser_convert
            (dict_of [(SStr "id", SInt 0); (SStr "name", SStr "unknown");
                      (SStr "account_id", SInt 0)])
            client)
         client).
Proof.
  intros Hid Hw Hd Hs Hsec.
  destruct (get_level_to_sections level_id type number cooldown client w
              download search rest d Hid Hw Hd Hs)
    as [w2 ->].
  rewrite bind_lift_return, Hsec. reflexivity.
Qed.

(** ** The fan-outs over pages *)

Lemma run_tasks_pages {O} (op : Z -> M (list O)) pages : forall w ls w',
  each_page op pages w = (Return ls, w') ->
  exists outcomes,
    run_tasks (map (fun page => as_task (op page)) pages) w = (outcomes, w')
    /\ failures outcomes = []
    /\ values outcomes = map (fun l => VList (map VObj l)) ls.
Proof.
  induction pages as [|page pages IH]; intros w ls w' He.
  - injection He as <- <-. exists []. repeat apply conj; reflexivity.
  - cbn [each_page] in He. unfold bind at 1 in He.
    destruct (op page w) as [[l|e] w1] eqn:Ep; [|discriminate He].
    unfold bind in He.
    destruct (each_page op pages w1) as [[ls'|e] w2] eqn:Er;
      [|discriminate He].
    unfold ret in He. injection He as <- <-.
    destruct (IH w1 ls' w2 Er) as (outcomes & Hr & Hf & Hv).
    eexists. cbn [map run_tasks]. unfold as_task at 1, bind at 1.
    rewrite Ep. unfold ret at 1. rewrite Hr.
    repeat apply conj; [reflexivity | exact Hf |].
    cbn [values map]. now rewrite Hv.
Qed.

Lemma run_tasks_pages_fail {O} (op : Z -> M (list O)) pages : forall w e w1,
  each_page op pages w = (Raise e, w1) ->
  failures (fst (run_tasks (map (fun page => as_task (op page)) pages) w))
  <> [].
Proof.
  induction pages as [|page pages IH]; intros w e w1 He; [discriminate He|].
  cbn [each_page] in He. unfold bind at 1 in He.
  cbn [map run_tasks]. unfold as_task at 1, bind at 1.
  destruct (op page w) as [[l|e0] w2] eqn:Ep.
  - unfold bind in He.
    destruct (each_page op pages w2) as [[ls'|e1] w3] eqn:Er;
      [discriminate He|].
    specialize (IH w2 e1 w3 Er). unfold ret at 1.
    destruct (run_tasks (map (fun page0 => as_task (op page0)) pages) w2)
      as [outcomes w4].
    exact IH.
  - destruct (run_tasks (map (fun page0 => as_task (op page0)) pages) w2)
      as [outcomes w4].
    discriminate.
Qed.

Lemma run_many_pages {O} (op : Z -> M (list O)) pages w :
  pages_in_order op (run_many (map (fun page => as_task (op page)) pages))
    pages w.
Proof.
  split.
  - intros ls w' He.
    destruct (run_tasks_pages op pages w ls w' He)
      as (outcomes & Hr & Hf & Hv).
    unfold run_many, bind, gather. rewrite Hr, Hf, Hv. unfold lift.
    rewrite <- (map_map (map VObj) VList).
    rewrite run_many_results_lists, <- concat_map. reflexivity.
  - intros e w1 He. pose proof (run_tasks_pages_fail op pages w e w1 He) as Hf.
    unfold run_many, bind, gather.
    destruct (run_tasks (map (fun page => as_task (op page)) pages) w)
      as [outcomes w2].
    cbn [fst] in Hf. destruct (failures outcomes) as [|f fs];
      [now elim Hf|].
    eexists. reflexivity.
Qed.

(** Tasks that all fail with the same error, without touching the world:
    the gather fails with it, and the world is as it was. *)
Lemma gather_all_fail_early {O} (tasks : list (M (value O))) task e w :
  (forall t w0, In t (task :: tasks) -> t w0 = (Raise e, w0)) ->
  gather (task :: tasks) w = (Raise e, w).
Proof.
  intros Hall.
  assert (Hr : forall ts : list (M (value O)),
             (forall t w0, In t ts -> t w0 = (Raise e, w0)) ->
             run_tasks ts w = (map (fun _ => (Raise e, true)) ts, w)).
  { induction ts as [|t ts IH]; intros Hts; [reflexivity|].
    cbn [run_tasks map]. rewrite (Hts t w (or_introl eq_refl)).
    rewrite (IH (fun t0 w0 Hin => Hts t0 w0 (or_intror Hin))).
    now rewrite Nat.eqb_refl. }
  unfold gather. rewrite (Hr (task :: tasks) Hall). reflexivity.
Qed.

(** The fan-outs whose route the class [Route] defines follow their pages:
    when the page operation (run with [raise_errors] off) returns on every
    page, [get_messages], [get_friend_requests], [retrieve_comments] for
    the comments of type 'level' and [search_levels] return the elements
    of the pages in the order of the pages, concatenated; when it fails on
    some page, they fail. *)
Theorem fan_out_in_page_order {C : Collaborators} {H : Helpers} client w
  pages :
  (forall sent_or_inbox,
     str_in sent_or_inbox ["inbox"; "sent"] = true ->
     pages_in_order
       (fun page => get_page_messages Route.routes sent_or_inbox page false
                      client)
       (get_messages Route.routes sent_or_inbox (Some pages) client)
       pages w)
  /\ (forall sent_or_inbox,
        str_in sent_or_inbox ["sent"; "inbox"] = true ->
        pages_in_order
          (fun page => get_page_friend_requests Route.routes sent_or_inbox
                         page false client)
          (get_friend_requests Route.routes pages sent_or_inbox client)
          pages w)
  /\ (forall user strategy_value,
        pages_in_order
          (fun page => retrieve_page_comments Route.routes user "level" page
                         false strategy_value client)
          (retrieve_comments Route.routes user pages "level" strategy_value
             client)
          pages w)
  /\ (forall query filters user,
        pages_in_order
          (fun page => search_levels_on_page Route.routes page query filters
                         user None false client)
          (search_levels Route.routes query filters user (Some pages) client)
          pages w).
Proof.
  repeat apply conj.
  - intros s Hs.
    pose proof (run_many_pages
                  (fun page => get_page_messages Route.routes s page false
                                 client)
                  pages w) as Hp.
    unfold pages_in_order, get_messages in *. rewrite Hs.
    cbn [assert iter_pages of_option]. rewrite !bind_lift_return.
    exact Hp.
  - intros s Hs.
    pose proof (run_many_pages
                  (fun page => get_page_friend_requests Route.routes s page
                                 false client)
                  pages w) as Hp.
    unfold pages_in_order, get_friend_requests in *. rewrite Hs.
    cbn [assert]. rewrite !bind_lift_return. exact Hp.
  - intros user sv.
    pose proof (run_many_pages
                  (fun page => retrieve_page_comments Route.routes user
                                 "level" page false sv client)
                  pages w) as Hp.
    unfold pages_in_order, retrieve_comments in *.
    cbn [str_in existsb String.eqb Ascii.eqb Bool.eqb orb assert].
    rewrite !bind_lift_return. exact Hp.
  - intros query filters user.
    pose proof (run_many_pages
                  (fun page => search_levels_on_page Route.routes page query
                                 filters user None false client)
                  pages w) as Hp.
    unfold pages_in_order, search_levels in *.
    cbn [iter_pages of_option]. rewrite !bind_lift_return. exact Hp.
Qed.

(** [pages] defaults to [None] in [get_messages] and [search_levels]:
    called so, they raise [TypeError] (after the assertion on
    [sent_or_inbox]) and send nothing. *)
Theorem default_pages_fail {C : Collaborators} {H : Helpers}
  (R : Route.table) client w :
  (forall sent_or_inbox,
     get_messages R sent_or_inbox None client w
     = (Raise (if str_in sent_or_inbox ["inbox"; "sent"]
               then TypeError "'NoneType' object is not iterable"
               else AssertionError "sent_or_inbox in ('inbox', 'sent')"),
        w))
  /\ (forall query filters user,
        search_levels R query filters user None client w
        = (Raise (TypeError "'NoneType' object is not iterable"), w)).
Proof.
  split.
  - intros s. unfold get_messages.
    destruct (str_in s ["inbox"; "sent"]); reflexivity.
  - reflexivity.
Qed.

(** *** Pages without data *)

Lemma each_page_no_data {A} (op : Z -> M (list A)) pages :
  (forall page w body rest,
     In page pages -> replies w = body :: rest -> no_data body ->
     exists r, op page w = (Return [], issue r w rest)) ->
  forall bodies rest w,
    Forall no_data bodies ->
    List.length bodies = List.length pages ->
    replies w = (bodies ++ rest)%list ->
    exists ls w',
      each_page op pages w = (Return ls, w')
      /\ List.concat ls = []
      /\ replies w' = rest
      /\ List.length (sent w')
         = (List.length (sent w) + List.length pages)%nat.
Proof.
  induction pages as [|page pages IH]; intros Hop bodies rest w Hnd Hlen Hw.
  - destruct bodies; [|discriminate Hlen]. exists [], w.
    repeat apply conj; try reflexivity; [exact Hw | cbn; lia].
  - destruct bodies as [|body bodies]; [discriminate Hlen|].
    inversion Hnd as [|? ? Hb Hbs]; subst.
    destruct (Hop page w body (bodies ++ rest)%list (or_introl eq_refl) Hw Hb)
      as [r Hr].
    destruct (IH (fun p w b r' Hin => Hop p w b r' (or_intror Hin))
                bodies rest (issue r w (bodies ++ rest)%list) Hbs
                ltac:(cbn in Hlen; lia) eq_refl)
      as (ls & w' & He & Hc & Hrep & Hsent).
    exists ([] :: ls), w'. repeat apply conj.
    + cbn [each_page]. unfold bind at 1. rewrite Hr.
      unfold bind. rewrite He. reflexivity.
    + exact Hc.
    + exact Hrep.
    + rewrite Hsent. cbn [issue sent List.length].
      rewrite length_app. cbn. lia.
Qed.

Ltac use_route_ex H :=
  let path := fresh "path" in
  let Hp := fresh "Hp" in
  destruct (defined_lookup _ _ H) as [path Hp]; eexists;
  unfold route_attr, Route.getattr; rewrite Hp; cbn [of_option];
  rewrite ?bind_lift_return.

Section PagesNoData.

Context {C : Collaborators}.
Variables (R : Route.table) (client : Client) (w : world).
Variables (body : string) (rest : list string).
Hypothesis Hw : replies w = body :: rest.
Hypothesis Hnd : no_data body.

Lemma get_page_messages_quiet sent_or_inbox page :
  Route.defined R "GET_PRIVATE_MESSAGES" = true ->
  str_in sent_or_inbox ["inbox"; "sent"] = true ->
  exists r, get_page_messages R sent_or_inbox page false client w
            = (Return [], issue r w rest).
Proof.
  intros Hr Hin. unfold get_page_messages. rewrite Hin.
  cbn [assert]. use_route_ex Hr.
  rewrite (bind_http _ _ _ _ _ _ _ _ _ Hw).
  no_data_cases Hnd; reflexivity.
Qed.

Lemma retrieve_page_comments_quiet user type page strategy_value :
  Route.defined R (if String.eqb type "level" then "GET_COMMENT_HISTORY"
                   else "GET_ACC_COMMENTS") = true ->
  0 <= page ->
  str_in type ["profile"; "level"] = true ->
  exists r, retrieve_page_comments R user type page false strategy_value
              client w
            = (Return [], issue r w rest).
Proof.
  intros Hr Hpage Htype. unfold retrieve_page_comments.
  replace (0 <=? page) with true by (symmetry; now apply Z.leb_le).
  rewrite Htype. cbn [assert].
  destruct (String.eqb type "level"); use_route_ex Hr;
    rewrite (bind_http _ _ _ _ _ _ _ _ _ Hw);
    no_data_cases Hnd; reflexivity.
Qed.

End PagesNoData.

(** When the backend answers every page without data, [get_messages] and
    [retrieve_comments] for the comments of type 'level' return the empty
    list, raise nothing, and have sent one request for each page. *)
Theorem fan_out_without_data {C : Collaborators} {H : Helpers} client w
  pages bodies rest :
  Forall no_data bodies ->
  List.length bodies = List.length pages ->
  replies w = (bodies ++ rest)%list ->
  (forall sent_or_inbox,
     str_in sent_or_inbox ["inbox"; "sent"] = true ->
     finds_nothing (List.length pages) rest w
       (get_messages Route.routes sent_or_inbox (Some pages) client))
  /\ (forall user strategy_value,
        Forall (fun page => 0 <= page) pages ->
        finds_nothing (List.length pages) rest w
          (retrieve_comments Route.routes user pages "level" strategy_value
             client)).
Proof.
  intros Hnd Hlen Hw.
  assert (Hrun : forall (op : Z -> M (list Obj)) fan_out,
             pages_in_order op fan_out pages w ->
             (forall page w0 body rest0,
                In page pages -> replies w0 = body :: rest0 ->
                no_data body ->
                exists r, op page w0 = (Return [], issue r w0 rest0)) ->
             finds_nothing (List.length pages) rest w fan_out).
  { intros op fan_out [Hin _] Hop.
    destruct (each_page_no_data op pages Hop bodies rest w Hnd Hlen Hw)
      as (ls & w' & He & Hc & Hrep & Hsent).
    exists w'. rewrite (Hin ls w' He), Hc.
    repeat apply conj; [reflexivity | exact Hrep | exact Hsent]. }
  split.
  - intros s Hs.
    apply (Hrun (fun page => get_page_messages Route.routes s page false
                               client)).
    + pose proof (run_many_pages
                    (fun page => get_page_messages Route.routes s page false
                                   client)
                    pages w) as Hp.
      unfold pages_in_order, get_messages in *. rewrite Hs.
      cbn [assert iter_pages of_option]. rewrite !bind_lift_return.
      exact Hp.
    + intros page w0 body rest0 _ Hw0 Hb.
      now apply (get_page_messages_quiet Route.routes client w0 body rest0
                   Hw0 Hb).
  - intros user sv Hpages.
    apply (Hrun (fun page => retrieve_page_comments Route.routes user
                               "level" page false sv client)).
    { pose proof (run_many_pages
                    (fun page => retrieve_page_comments Route.routes user
                                   "level" page false sv client)
                    pages w) as Hp.
      unfold pages_in_order, retrieve_comments in *.
      cbn [str_in existsb String.eqb Ascii.eqb Bool.eqb orb assert].
      rewrite !bind_lift_return. exact Hp. }
    intros page w0 body rest0 Hin Hw0 Hb.
    apply (retrieve_page_comments_quiet Route.routes client w0 body rest0
             Hw0 Hb); [reflexivity | | reflexivity].
    now apply (proj1 (Forall_forall _ _) Hpages).
Qed.

(** ** [accept_friend_req] *)

Lemma not_one_reply body :
  not_one (reply_of body)
  = negb match bare_int body with Some n => n =? 1 | None => false end.
Proof. unfold not_one, reply_of. now destruct (bare_int body). Qed.

Lemma not_one_one body :
  bare_int body = Some 1 -> not_one (reply_of body) = false.
Proof. intros E. now rewrite not_one_reply, E. Qed.

Lemma not_one_other body :
  bare_int body <> Some 1 -> not_one (reply_of body) = true.
Proof.
  intros E. rewrite not_one_reply.
  destruct (bare_int body) as [n|]; [|reflexivity].
  destruct (Z.eqb_spec n 1); [subst; now elim E | reflexivity].
Qed.

(** [accept_friend_req] refuses a request that was sent, before any
    request to the backend; for a received one it sends one request to
    [acceptGJFriendRequest20], succeeds when the answer is 1 and raises
    [MissingAccess] on any other answer. *)
Theorem accept_friend_req_outcome {C : Collaborators} {H : Helpers}
  req client w body rest :
  replies w = body :: rest ->
  (obj_type_value req <> 0 ->
   accept_friend_req Route.routes req client w
   = (Raise (MissingAccess
               ("Failed to accept a friend request. "
                ++ "Reason: request is sent, not recieved one.")),
      w))
  /\ (obj_type_value req = 0 ->
      (exists r,
         snd (accept_friend_req Route.routes req client w) = issue r w rest
         /\ req_route r = "acceptGJFriendRequest20")
      /\ (bare_int body = Some 1 ->
          fst (accept_friend_req Route.routes req client w) = Return tt)
      /\ (bare_int body <> Some 1 ->
          fst (accept_friend_req Route.routes req client w)
          = Raise (MissingAccess ("Failed to accept a friend request: "
                                  ++ obj_repr req ++ ".")))).
Proof.
  intros Hw. split.
  - intros Hne. unfold accept_friend_req.
    destruct (Z.eqb_spec (obj_type_value req) 0); [now elim Hne|].
    reflexivity.
  - intros E. unfold accept_friend_req. rewrite E. cbn [Z.eqb negb].
    cbv zeta.
    change (route_attr Route.routes "ACCEPT_REQUEST")
      with (lift (Return "acceptGJFriendRequest20")).
    rewrite bind_lift_return, (bind_http_silent _ _ _ _ _ _ _ _ Hw).
    repeat apply conj.
    + eexists. split.
      * destruct (not_one (reply_of body)); reflexivity.
      * reflexivity.
    + intros E1. now rewrite (not_one_one _ E1).
    + intros E1. now rewrite (not_one_other _ E1).
Qed.

(** ** [update_profile] *)

Lemma mapM_setting settings keys :
  mapM (setting settings) keys
  = match first_missing settings keys with
    | Some k => Raise (KeyError (str_repr k))
    | None => Return (map (fun k => dict_get settings (SStr k)) keys)
    end.
Proof.
  unfold first_missing.
  induction keys as [|k keys IH]; [reflexivity|].
  cbn [mapM find map]. unfold setting at 1, dict_get at 1.
  destruct (dict_lookup settings (SStr k)) as [v|];
    cbn [is_none of_option rbind]; [|reflexivity].
  rewrite IH. destruct (find _ keys); reflexivity.
Qed.

(** [update_profile] reads the sixteen signed settings before it names its
    route: when one of them is missing, it raises [KeyError] for the first
    one missing, in the order of lines 1100-1103, whatever the route table
    is, and nothing is sent. *)
Theorem update_profile_outcome {C : Collaborators} {H : Helpers}
  (R : Route.table) settings client w k :
  first_missing settings profile_keys = Some k ->
  update_profile R settings client w = (Raise (KeyError (str_repr k)), w)
  /\ In k profile_keys
  /\ dict_lookup settings (SStr k) = None.
Proof.
  intros Hk. repeat apply conj.
  - unfold update_profile. rewrite mapM_setting, Hk. reflexivity.
  - apply (find_some _ _ Hk).
  - destruct (find_some _ _ Hk) as [_ Hnone].
    destruct (dict_lookup settings (SStr k)); [discriminate Hnone|].
    reflexivity.
Qed.

(** ** [login] *)



(** ** [search_user] *)

(** [search_user] returns [None] on a reply without data, raises
    [MissingAccess] on -1, and sends one request only when an abstract user
    is asked for. *)
Theorem search_user_outcome {C : Collaborators} {H : Helpers} param
  return_abstract client w body rest :
  replies w = body :: rest ->
  (no_data body ->
   exists r,
     search_user Route.routes param return_abstract client w
     = (Return None, issue r w rest))
  /\ (bare_int body = Some (-1) ->
      fst (search_user Route.routes param return_abstract client w)
      = Raise (MissingAccess ("Searching for " ++ scalar_str param
                              ++ " returned -1.")))
  /\ (return_abstract = true ->
      exists r,
        snd (search_user Route.routes param return_abstract client w)
        = issue r w rest).
Proof.
  intros Hw. unfold search_user.
  change (route_attr Route.routes "USER_SEARCH")
    with (lift (Return "getGJUsers20")).
  rewrite bind_lift_return, (bind_http _ _ _ _ _ _ _ _ _ Hw). cbv zeta.
  repeat apply conj.
  - intros Hnd. eexists. no_data_cases Hnd; reflexivity.
  - intros E. rewrite E. reflexivity.
  - intros ->. eexists. cbn [orb].
    assert (Hk : forall resp w',
               snd (bind (lift (Parser.parse
                    (Parser.new |> Parser.split "#" |> Parser.take 0
                     |> Parser.check_empty |> Parser.split ":"
                     |> Parser.should_map)
                    resp))
                 (fun mapped =>
                    if Parser.is_None mapped then ret None
                    else
                      bind (lift (get_default mapped (SInt Index_USER_NAME)
                                    (SStr "unknown")))
                        (fun name =>
                           bind (lift (get_default mapped
                                         (SInt Index_USER_PLAYER_ID)
                                         (SInt 0)))
                             (fun id =>
                                bind (lift (get_default mapped
                                              (SInt Index_USER_ACCOUNT_ID)
                                              (SInt 0)))
                                  (fun account_id =>
                                     ret (Some (abstractuser_convert
                                                  (dict_of
                                                     [(SStr "name", name);
                                                      (SStr "id", id);
                                                      (SStr "account_id",
                                                       account_id)])
                                                  client))))))
                 w')
               = w').
    { intros resp w'. unfold bind, lift, ret.
      destruct (Parser.parse _ resp) as [mapped|e]; [|reflexivity].
      destruct (Parser.is_None mapped); [reflexivity|].
      destruct (get_default mapped (SInt Index_USER_NAME) _); [|reflexivity].
      destruct (get_default mapped (SInt Index_USER_PLAYER_ID) _);
        [|reflexivity].
      destruct (get_default mapped (SInt Index_USER_ACCOUNT_ID) _);
        reflexivity. }
    destruct (bare_int body) as [n|].
    + cbn [code_lookup]. destruct (-1 =? n); [reflexivity|].
      cbn [code_lookup]. apply Hk.
    + apply Hk.
Qed.

(** ** [get_top] *)

(** [get_top] requires a logged-in client for the strategies of value 1
    and 2: against a client that is not logged in it fails with the
    must-be-logged-in condition before it names its route, whatever the
    route table is, and nothing is sent. *)
Theorem get_top_outcome {C : Collaborators} (R : Route.table) strategy_name
  strategy_value count client w :
  strategy_value = 1 \/ strategy_value = 2 ->
  client_is_logged client = false ->
  get_top R strategy_name strategy_value count client w
  = (Raise (ClientNotLogged "get_top"), w).
Proof.
  intros Hv Hl. unfold get_top, check_logged_obj.
  replace ((strategy_value =? 1) || (strategy_value =? 2)) with true
    by (destruct Hv as [-> | ->]; reflexivity).
  rewrite Hl. reflexivity.
Qed.

(** ** The actions on the route table as it is *)

(** The class [Route] of [gd/utils/routes.py] lacks the routes of these
    actions: past their own checks they fail on the attribute, and nothing
    is sent. *)
Theorem shipped_routes_stop_the_actions {C : Collaborators} {H : Helpers}
  client w :
  (forall level rating,
     0 < rating <= 10 ->
     rate_level Route.routes level rating client w
     = (Raise (AttributeError "Route" "RATE_LEVEL_STARS"), w))
  /\ (forall item dislike,
        obj_hasattr item "is_featured" = true
        \/ obj_hasattr item "is_spam" = true ->
        like Route.routes item dislike client w
        = (Raise (AttributeError "Route" "LIKE_ITEM"), w))
  /\ (forall target message,
        send_friend_request Route.routes target message client w
        = (Raise (AttributeError "Route" "SEND_REQUEST"), w))
  /\ (forall settings,
        first_missing settings profile_keys = None ->
        update_profile Route.routes settings client w
        = (Raise (AttributeError "Route" "UPDATE_USER_SCORE"), w))
  /\ (forall page pages,
        get_map_packs Route.routes (page :: pages) client w
        = (Raise (AttributeError "Route" "GET_MAP_PACKS"), w))
  /\ (forall strategy_name strategy_value count,
        (top_needs_login strategy_value = true ->
         client_is_logged client = true) ->
        get_top Route.routes strategy_name strategy_value count client w
        = (Raise (AttributeError "Route" "GET_USER_TOP"), w)).
Proof.
  repeat apply conj.
  - intros level rating [Hlo Hhi]. unfold rate_level.
    replace ((0 <? rating) && (rating <=? 10)) with true
      by (symmetry; apply andb_true_iff; split;
          [now apply Z.ltb_lt | now apply Z.leb_le]).
    cbn [assert]. rewrite bind_lift_return. cbv zeta.
    now apply route_attr_undefined.
  - intros item dislike Hsome. unfold like, like_target.
    destruct (obj_hasattr item "is_featured");
      [now apply route_attr_undefined|].
    destruct Hsome as [Hf|Hs]; [discriminate Hf|]. rewrite Hs.
    destruct (obj_type_value item =? 0); now apply route_attr_undefined.
  - intros target message. unfold send_friend_request.
    now apply route_attr_undefined.
  - intros settings Hall. unfold update_profile.
    rewrite mapM_setting, Hall, bind_lift_return. cbv zeta.
    now apply route_attr_undefined.
  - intros page pages. unfold get_map_packs, run_many. cbn [map].
    unfold bind.
    rewrite (gather_all_fail_early _ _
               (AttributeError "Route" "GET_MAP_PACKS"));
      [reflexivity|].
    intros t w0 Hin. change (In t (map (fun page0 =>
                                          as_task (get_page_map_packs
                                                     Route.routes page0
                                                     false client))
                                     (page :: pages))) in Hin.
    apply in_map_iff in Hin as (page0 & <- & _).
    unfold as_task, bind, get_page_map_packs.
    now rewrite route_attr_undefined.
  - intros name value count Hl. unfold get_top, check_logged_obj.
    unfold top_needs_login in Hl.
    destruct ((value =? 1) || (value =? 2));
      rewrite ?(Hl eq_refl); cbn [rbind]; rewrite bind_lift_return;
      now apply route_attr_undefined.
Qed.

(** ** The statements at concrete inputs *)

Import Concrete.

(** C4 as stated fails: with [raise_errors] on, as it is by default, a
    reply whose first section is empty makes [retrieve_page_comments] raise
    [NothingFound], although the backend sent no negative code. *)
Lemma listing_no_data_can_raise :
  no_data "#0:0:10"
  /\ bare_int "#0:0:10" = None
  /\ fst (retrieve_page_comments Route.routes player "level" 0 true 0
            logged_in (backend ["#0:0:10"]))
     = Raise (NothingFound "gd.Comment")
  /\ fst (retrieve_page_comments Route.routes player "level" 0 true 0
            logged_in (backend ["#0:0:10"]))
     <> Return [].
Proof.
  repeat apply conj;
    [right; now exists "0:0:10" | reflexivity | reflexivity | discriminate].
Qed.

Lemma listing_no_data_witness :
  no_data "#0:0:10"
  /\ fst (get_page_messages Route.routes "inbox" 0 true logged_in
            (backend ["#0:0:10"]))
     = Return []
  /\ fst (retrieve_page_comments Route.routes player "level" 0 false 0
            logged_in (backend ["#0:0:10"]))
     = Return []
  /\ fst (retrieve_page_comments Route.routes player "level" 0 true 0
            logged_in (backend [""]))
     = Return []
  /\ fst (search_levels_on_page Route.routes 0 "" None None None true
            logged_in (backend [""]))
     = Return [].
Proof.
  assert (Hnd : no_data "#0:0:10") by (right; exists "0:0:10"; reflexivity).
  assert (Hempty : no_data "") by (left; reflexivity).
  pose proof (listing_no_data logged_in (backend ["#0:0:10"]) "#0:0:10" []
                eq_refl Hnd)
    as (Hm & Hc & _).
  pose proof (listing_no_data logged_in (backend [""]) "" [] eq_refl Hempty)
    as (_ & Hc' & Hs).
  repeat apply conj.
  - exact Hnd.
  - apply Hm; reflexivity.
  - apply (Hc player 0 false 0). lia.
  - apply (Hc' player 0 true 0). lia.
  - apply (Hs 0 "" None None None true); [reflexivity|].
    intros Hlogin. discriminate Hlogin.
Defined.


Lemma search_levels_on_page_requires_login_witness :
  client_is_logged anonymous = false
  /\ search_levels_on_page Route.routes 0 ""
       (Some {| strategy := BY_USER; toggles := [] |}) None None true
       anonymous (backend ["1:77:2:Jump#77:Bob:5#"])
     = (Raise (ClientNotLogged "search_levels_on_page(...)"),
        backend ["1:77:2:Jump#77:Bob:5#"]).
Proof.
  split; [reflexivity|].
  exact (proj1 (search_levels_on_page_requires_login Route.routes 0 "" []
                  None None true anonymous
                  (backend ["1:77:2:Jump#77:Bob:5#"]) eq_refl)).
Defined.

Lemma get_user_none_on_empty_search_witness :
  Parser.parse user_info_parser (reply_of "1:Bob:2:1010:16:71")
  = Return (PDict [(SInt 1, SStr "Bob"); (SInt 2, SInt 1010);
                   (SInt 16, SInt 71)])
  /\ Parser.parse user_search_parser (reply_of "") = Return (PAtom SNone)
  /\ fst (get_user Route.routes 71 false logged_in
            (backend ["1:Bob:2:1010:16:71"; ""]))
     = Return None.
Proof.
  repeat apply conj; [reflexivity | reflexivity |].
  exact (proj1 (get_user_none_on_empty_search 71 logged_in
                  (backend ["1:Bob:2:1010:16:71"; ""])
                  "1:Bob:2:1010:16:71" "" []
                  [(SInt 1, SStr "Bob"); (SInt 2, SInt 1010);
                   (SInt 16, SInt 71)]
                  eq_refl eq_refl)
           eq_refl).
Defined.

(** The message of [letter] is never decoded, whatever the backend says. *)
Example read_message_on_a_reply :
  fst (read_message Route.routes letter logged_in
         (backend ["6:player:3:71:2:1010:1:3:4:aGk=:8:1:9:0:5:RFVFRA=="]))
  = Raise (AttributeError "Parser" "get").
Proof. reflexivity. Qed.

(** The parser on the example of the specification (section 8, item 5). *)
Example parser_on_flat_record :
  Parser.parse
    (Parser.new |> Parser.split "#" |> Parser.take 0 |> Parser.split ":"
     |> Parser.should_map)
    (SStr "a:1:b:2#x|y#")
  = Return (PDict [(SStr "a", SInt 1); (SStr "b", SInt 2)]).
Proof. reflexivity. Qed.

(** ** The further properties at concrete inputs *)

Import ConcreteHelpers.

Lemma get_timely_being_refreshed_witness :
  scalar_bool (reply_of "") = false
  /\ fst (get_timely Route.routes "daily" logged_in (backend [""]))
     = Raise (MissingAccess
                "Failed to fetch a daily level. Most likely it is being refreshed.")
  /\ List.length
       (sent (snd (get_timely Route.routes "daily" logged_in (backend [""]))))
     = 1%nat.
Proof.
  pose proof (get_timely_being_refreshed (C := collaborators) "daily" logged_in (backend [""]) ""
                [] eq_refl eq_refl) as E.
  repeat apply conj; [reflexivity | now rewrite E | now rewrite E].
Defined.

Lemma get_user_single_request_witness :
  bare_int "-1" = Some (-1)
  /\ fst (get_user Route.routes 71 false logged_in (backend ["-1"]))
     = Raise (MissingAccess "No users were found with ID: 71.").
Proof.
  split; [reflexivity|].
  exact (f_equal fst
           (proj1 (get_user_single_request (C := collaborators) 71 logged_in (backend ["-1"])
                     "-1" [] eq_refl)
              eq_refl false)).
Defined.

Lemma search_levels_on_page_sections_witness :
  Py.split "1:77:2:Jump#77:Bob:5#" "#" = ["1:77:2:Jump"; "77:Bob:5"; ""]
  /\ exists levels,
       fst (search_levels_on_page Route.routes 0 "" None None None true
              logged_in (backend ["1:77:2:Jump#77:Bob:5#"]))
       = Return levels
       /\ List.length levels = 1%nat.
Proof.
  split; [reflexivity|].
  exact (proj1 (search_levels_on_page_sections (C := collaborators) 0 "" None None None true
                  logged_in (backend ["1:77:2:Jump#77:Bob:5#"])
                  "1:77:2:Jump#77:Bob:5#" [] eq_refl eq_refl
                  (fun _ => eq_refl))
           "1:77:2:Jump" "77:Bob:5" "" [] eq_refl).
Defined.

Lemma get_level_needs_three_sections_witness :
  Py.split "1:77" "#" = ["1:77"]
  /\ fst (get_level Route.routes 77 (0, -1, -1) logged_in
            (backend ["1:77:2:Jump:12:3#x"; "1:77"]))
     = Raise (IndexError "list index out of range").
Proof.
  split; [reflexivity|].
  apply (get_level_needs_three_sections (C := collaborators) 77 0 (-1) (-1) logged_in
           (backend ["1:77:2:Jump:12:3#x"; "1:77"])
           "1:77:2:Jump:12:3#x" "1:77" []
           [(SInt 1, SInt 77); (SInt 2, SStr "Jump"); (SInt 12, SInt 3);
            (SInt 101, SInt 0); (SInt 102, SInt (-1));
            (SInt 103, SInt (-1))]);
    [lia | reflexivity | reflexivity | reflexivity | simpl; lia].
Defined.

Lemma get_level_defaults_witness :
  Py.split "1:77##" "#" = ["1:77"; ""; ""]
  /\ fst (get_level Route.routes 77 (0, -1, -1) logged_in
            (backend ["1:77:2:Jump:12:3#x"; "1:77##"]))
     = Return
         (Built "Level"
            (PDict [(SInt 1, SInt 77); (SInt 2, SStr "Jump");
                    (SInt 12, SInt 3); (SInt 101, SInt 0);
                    (SInt 102, SInt (-1)); (SInt 103, SInt (-1))])
            [Attached (Built "Song" (PAtom (SInt 3)) []);
             Built "AbstractUser"
               (PDict [(SStr "id", SInt 0); (SStr "name", SStr "unknown");
                       (SStr "account_id", SInt 0)])
               []]).
Proof.
  split; [reflexivity|].
  apply (get_level_defaults (C := collaborators) 77 0 (-1) (-1) logged_in
           (backend ["1:77:2:Jump:12:3#x"; "1:77##"])
           "1:77:2:Jump:12:3#x" "1:77##" []
           [(SInt 1, SInt 77); (SInt 2, SStr "Jump"); (SInt 12, SInt 3);
            (SInt 101, SInt 0); (SInt 102, SInt (-1));
            (SInt 103, SInt (-1))]
           "1:77" []);
    [lia | reflexivity | reflexivity | reflexivity | reflexivity].
Defined.

Lemma get_level_comments_empty_body_witness :
  fst (get_level_comments Route.routes level 0 20 logged_in (backend [""]))
  = Raise (ValueError "not enough values to unpack").
Proof.
  exact (get_level_comments_empty_body (C := collaborators) level 0 20 logged_in (backend [""]) []
           eq_refl).
Defined.

Lemma fan_out_in_page_order_witness :
  fst (each_page
         (fun page => get_page_messages Route.routes "inbox" page false
                        logged_in)
         [0; 1] (backend ["1:7:2:a|1:8:2:b#x"; "1:9:2:c#"]))
  = Return
      [[Built "Message" (PDict [(SInt 1, SInt 7); (SInt 2, SStr "a")]) [];
        Built "Message" (PDict [(SInt 1, SInt 8); (SInt 2, SStr "b")]) []];
       [Built "Message" (PDict [(SInt 1, SInt 9); (SInt 2, SStr "c")]) []]]
  /\ fst (get_messages Route.routes "inbox" (Some [0; 1]) logged_in
            (backend ["1:7:2:a|1:8:2:b#x"; "1:9:2:c#"]))
     = Return
         [VObj (Built "Message"
                  (PDict [(SInt 1, SInt 7); (SInt 2, SStr "a")]) []);
          VObj (Built "Message"
                  (PDict [(SInt 1, SInt 8); (SInt 2, SStr "b")]) []);
          VObj (Built "Message"
                  (PDict [(SInt 1, SInt 9); (SInt 2, SStr "c")]) [])].
Proof.
  split; [reflexivity|].
  pose proof (proj1 (proj1 (fan_out_in_page_order (C := collaborators)
                              logged_in
                              (backend ["1:7:2:a|1:8:2:b#x"; "1:9:2:c#"])
                              [0; 1])
                       "inbox" eq_refl)
                _ _ eq_refl)
    as E.
  exact (f_equal fst E).
Defined.

Lemma fan_out_without_data_witness :
  Forall no_data [""; "#0:0:10"]
  /\ finds_nothing 2 [] (backend [""; "#0:0:10"])
       (get_messages Route.routes "inbox" (Some [0; 1]) logged_in)
  /\ finds_nothing 2 [] (backend [""; "#0:0:10"])
       (retrieve_comments Route.routes player [0; 1] "level" 0 logged_in).
Proof.
  assert (Hnd : Forall no_data [""; "#0:0:10"]).
  { apply Forall_cons; [left; reflexivity|].
    apply Forall_cons; [right; now exists "0:0:10" | apply Forall_nil]. }
  pose proof (fan_out_without_data (C := collaborators) logged_in
                (backend [""; "#0:0:10"]) [0; 1] [""; "#0:0:10"] [] Hnd
                eq_refl eq_refl)
    as (Hm & Hc).
  repeat apply conj.
  - exact Hnd.
  - apply Hm. reflexivity.
  - apply (Hc player 0). repeat constructor; lia.
Defined.

Lemma accept_friend_req_outcome_witness :
  obj_type_value sent_request = 1
  /\ accept_friend_req Route.routes sent_request logged_in (backend ["1"])
     = (Raise (MissingAccess
                 ("Failed to accept a friend request. "
                  ++ "Reason: request is sent, not recieved one.")),
        backend ["1"]).
Proof.
  assert (Hsent : obj_type_value sent_request <> 0) by discriminate.
  split; [reflexivity|].
  exact (proj1 (accept_friend_req_outcome (C := collaborators) sent_request
                  logged_in (backend ["1"]) "1" [] eq_refl)
           Hsent).
Defined.

Lemma update_profile_outcome_witness :
  first_missing [(SStr "stars", SInt 9)] profile_keys = Some "user_coins"
  /\ update_profile Route.routes [(SStr "stars", SInt 9)] logged_in
       (backend ["1"])
     = (Raise (KeyError "'user_coins'"), backend ["1"]).
Proof.
  split; [reflexivity|].
  exact (proj1 (update_profile_outcome (C := collaborators) Route.routes
                  [(SStr "stars", SInt 9)] logged_in (backend ["1"])
                  "user_coins" eq_refl)).
Defined.


Lemma search_user_outcome_witness :
  no_data ""
  /\ fst (search_user Route.routes (SStr "Bob") false logged_in
            (backend [""]))
     = Return None.
Proof.
  assert (Hnd : no_data "") by (left; reflexivity).
  split; [exact Hnd|].
  destruct (proj1 (search_user_outcome (C := collaborators) (SStr "Bob") false logged_in
                     (backend [""]) "" [] eq_refl)
              Hnd)
    as [r E].
  now rewrite E.
Defined.

Lemma get_top_outcome_witness :
  client_is_logged anonymous = false
  /\ get_top Route.routes "FRIENDS" 1 10 anonymous (backend ["1"])
     = (Raise (ClientNotLogged "get_top"), backend ["1"]).
Proof.
  split; [reflexivity|].
  exact (get_top_outcome (C := collaborators) Route.routes "FRIENDS" 1 10
           anonymous (backend ["1"]) (or_introl eq_refl) eq_refl).
Defined.
